(** * skeleton.py: the DepthAI pipeline builder and the host display loop

    A shallow embedding of [setup_pipeline] and [upload_pipeline].

    The script is glue around three collaborators that are not part of it:
    the DepthAI SDK ([dai]), OpenCV ([cv2]) and the helper package
    [dai_tools].  Their objects are modelled as plain data:

    - a numpy image is a record with its first dimension, its payload and
      the list of texts drawn on it ([cv2.putText] draws in place);
    - a call the script makes to the outside world ([displayFrame],
      [print_neural_network_layer_names], [print], [getOutputQueue]) is an
      event appended to a trace, with the arguments that were passed; what
      [displayFrame] does with the image it is handed belongs to
      [dai_tools.utils] and is not modelled;
    - what the outside world hands back during one loop iteration (the five
      [tryGet] results, the clock reading, the key code) is a record [Tick];
    - what the SDK finds outside the script when the pipeline is built and
      uploaded (the blob file behind the model path, the device) is a record
      [Host]; the SDK calls that can fail on it, or on an integer that does
      not fit the C type of the parameter, raise as the SDK does;
    - [time.monotonic()] returns a float; clock readings and the quotient
      drawn on the frame are kept as exact rationals.  A float difference is
      zero exactly when the two readings are equal, so the division error is
      raised by the model exactly when Python raises it. *)

From Stdlib Require Import ZArith QArith List String Bool Lia.
Import ListNotations.

Local Open Scope string_scope.
Local Open Scope Z_scope.
Local Open Scope list_scope.

(** ** OpenCV *)

Module cv2.

(** The text written by ['NN fps: {:.2f}'.format(v)], carrying [v]. *)
Inductive Caption : Type :=
| NN_fps (v : Q).

Definition Scalar : Type := (Z * Z * Z)%type.

Record TextItem : Type := mkText {
  text : Caption;
  org : Z * Z;
  fontFace : Z;
  fontScale : Q;
  color : Scalar
}.

(** A numpy array holding an image. *)
Record Mat : Type := mkMat {
  shape0 : Z;
  pixels : list Z;
  drawn : list TextItem
}.

Definition FONT_HERSHEY_TRIPLEX : Z := 4.

(** [cv2.putText(img, text, org, fontFace, fontScale, color)] draws on
    [img] itself. *)
Definition putText (img : Mat) (txt : Caption) (at_ : Z * Z)
           (face : Z) (scale : Q) (col : Scalar) : Mat :=
  mkMat (shape0 img) (pixels img)
        (drawn img ++ [mkText txt at_ face scale col]).

End cv2.

(** ** DepthAI messages *)

Module dai.

Record ImgFrame : Type := mkImgFrame {
  getCvFrame : cv2.Mat
}.

Record ImgDetection : Type := mkImgDetection {
  label : Z;
  confidence : Q;
  xmin : Q;
  ymin : Q;
  xmax : Q;
  ymax : Q
}.

Record ImgDetections : Type := mkImgDetections {
  detections : list ImgDetection
}.

Record NNData : Type := mkNNData {
  getAllLayerNames : list string
}.

(** What [dai.Device] reports about the connected device. *)
Record Device : Type := mkDevice {
  getMxId : string;
  getUsbSpeed : string;
  getConnectedCameras : list string
}.

(** A compiled network as [setBlobPath] loads it from a file. *)
Record Blob : Type := mkBlob {
  blob_data : list Z
}.

(** *** The pipeline description

    The nodes in the order they were created, the value each setter left
    on each node, and the links in the order they were made. *)

Module OpenVINO.
Inductive Version : Type :=
| VERSION_2021_4
| VERSION_2022_1.
End OpenVINO.

Module node.
Inductive Kind : Type :=
| MonoCamera
| ColorCamera
| MobileNetDetectionNetwork
| XLinkOut.
End node.

Inductive CameraBoardSocket : Type :=
| RGB
| LEFT
| RIGHT.

Inductive SensorResolution : Type :=
| THE_400_P
| THE_480_P
| THE_720_P
| THE_800_P.

Module ColorOrder.
Inductive t : Type :=
| BGR
| RGB.
End ColorOrder.

Inductive Port : Type :=
| out
| preview
| outNetwork
| input.

Inductive Property : Type :=
| StreamName (name : string)
| BoardSocket (socket : CameraBoardSocket)
| Resolution (resolution : SensorResolution)
| PreviewSize (size : Z * Z)
| Interleaved (interleaved : bool)
| ColorOrderOf (order : ColorOrder.t)
| ConfidenceThreshold (thresh : Q)
| NumInferenceThreads (n : Z)
| BlobPath (path : string) (blob : Blob)
| InputBlocking (blocking : bool).

(** Whether two settings come from the same setter. *)
Definition same_setter (p q : Property) : bool :=
  match p, q with
  | StreamName _, StreamName _
  | BoardSocket _, BoardSocket _
  | Resolution _, Resolution _
  | PreviewSize _, PreviewSize _
  | Interleaved _, Interleaved _
  | ColorOrderOf _, ColorOrderOf _
  | ConfidenceThreshold _, ConfidenceThreshold _
  | NumInferenceThreads _, NumInferenceThreads _
  | BlobPath _ _, BlobPath _ _
  | InputBlocking _, InputBlocking _ => true
  | _, _ => false
  end.

Record Node : Type := mkNode {
  id : Z;
  kind : node.Kind
}.

Record Pipeline : Type := mkPipeline {
  openVINOVersion : option OpenVINO.Version;
  nodes : list Node;
  properties : list (Node * Property);
  connections : list ((Node * Port) * (Node * Port))
}.

(** [dai.Pipeline()] *)
Definition Pipeline_new : Pipeline := mkPipeline None [] [] [].

End dai.

(** ** Configuration

    [dai_tools.config] is imported by the script and is not part of it: its
    constants are taken as a record. *)

Record Config : Type := mkConfig {
  COLOR_CAMERA_PREVIEW_SIZE : Z * Z;
  CAMERA_INTERLEAVED : bool;
  NN_THRESHOLD : Q;
  INFERENCE_THREADS : Z;
  MOBILENET_DETECTION_MODEL_PATH : string;
  COLOR_CAMERA_QUEUE_SIZE : Z;
  QUEUE_BLOCKING : bool;
  TEXT_COLOR2 : cv2.Scalar;
  PRINT_NEURAL_NETWORK_METADATA : bool
}.

(** ** The host

    What the SDK finds outside the script: the blob a path leads to
    ([None] when the file is missing, empty or not a blob), and the device
    that takes a pipeline ([None] when [dai.Device(pipeline)] raises: no
    device is connected, or the device refuses the pipeline). *)

Record Host : Type := mkHost {
  blob_at : string -> option dai.Blob;
  connect : dai.Pipeline -> option dai.Device
}.

(** The values a Python int may have where the SDK takes a C [int] or a C
    [unsigned int]. *)
Definition fits_int (z : Z) : bool :=
  (-2147483648 <=? z) && (z <=? 2147483647).

Definition fits_unsigned (z : Z) : bool :=
  (0 <=? z) && (z <=? 4294967295).

(** ** Effects: a trace of outside calls, a state, and exceptions *)

Inductive Event : Type :=
| upload (pipeline : dai.Pipeline)
| print (what : string) (value : list string)
| getOutputQueue (name : string) (maxSize : Z) (blocking : bool)
| displayFrame (name : string) (frame : cv2.Mat)
               (detections : list dai.ImgDetection)
| print_neural_network_layer_names (inNN : dai.NNData).

Definition Trace : Type := list Event.

Inductive exn : Type :=
| ZeroDivisionError
| RuntimeError
| TypeError.

Inductive Result (A : Type) : Type :=
| Ok (a : A)
| Raised (e : exn).

Arguments Ok {A} a.
Arguments Raised {A} e.

(** A statement running on a state [S]: the calls it made, the state it
    left, and its value or the exception that stopped it. *)
Definition M (S A : Type) : Type := S -> Trace * S * Result A.

Section Monad.
Context {S : Type}.

Definition ret {A} (a : A) : M S A := fun s => ([], s, Ok a).

Definition bind {A B} (m : M S A) (k : A -> M S B) : M S B :=
  fun s =>
    match m s with
    | (tr, s1, Ok a) =>
        match k a s1 with
        | (tr2, s2, r) => (tr ++ tr2, s2, r)
        end
    | (tr, s1, Raised e) => (tr, s1, Raised e)
    end.

Definition raise {A} (e : exn) : M S A := fun s => ([], s, Raised e).

Definition call (e : Event) : M S unit := fun s => ([e], s, Ok tt).

Definition get {A} (field : S -> A) : M S A := fun s => ([], s, Ok (field s)).

Definition modify (f : S -> S) : M S unit := fun s => ([], f s, Ok tt).

Definition pass : M S unit := ret tt.

(** Python's [int / float]. *)
Definition truediv (a : Z) (b : Q) : M S Q :=
  if Qeq_bool b 0 then raise ZeroDivisionError else ret (inject_Z a / b)%Q.

End Monad.

Declare Scope stmt_scope.
Delimit Scope stmt_scope with stmt.

Notation "x <- c1 ;; c2" := (bind c1 (fun x => c2))
  (at level 100, c1 at next level, right associativity) : stmt_scope.
Notation "c1 ;; c2" := (bind c1 (fun _ => c2))
  (at level 100, right associativity) : stmt_scope.

Definition trace_of {S R} (r : Trace * S * R) : Trace := fst (fst r).
Definition state_of {S R} (r : Trace * S * R) : S := snd (fst r).
Definition result_of {S R} (r : Trace * S * R) : R := snd r.

(** ** The host loop *)

(** The variables of [upload_pipeline] that live across iterations. *)
Record Locals : Type := mkLocals {
  clrFrame : option cv2.Mat;
  detections : list dai.ImgDetection;
  startTime : Q;
  counter : Z;
  color2 : cv2.Scalar;
  printOutputLayersOnce : bool
}.

Definition set_clrFrame (v : option cv2.Mat) (l : Locals) : Locals :=
  mkLocals v (detections l) (startTime l) (counter l) (color2 l)
           (printOutputLayersOnce l).

Definition set_detections (v : list dai.ImgDetection) (l : Locals) : Locals :=
  mkLocals (clrFrame l) v (startTime l) (counter l) (color2 l)
           (printOutputLayersOnce l).

Definition set_counter (v : Z) (l : Locals) : Locals :=
  mkLocals (clrFrame l) (detections l) (startTime l) v (color2 l)
           (printOutputLayersOnce l).

Definition set_printOutputLayersOnce (v : bool) (l : Locals) : Locals :=
  mkLocals (clrFrame l) (detections l) (startTime l) (counter l) (color2 l) v.

(** What the outside world answers during one iteration: the five [tryGet]
    results ([None] when the queue is empty), the value [time.monotonic()]
    gives if it is asked, and the value [cv2.waitKey(1)] gives. *)
Record Tick : Type := mkTick {
  LeftFrames : option dai.ImgFrame;
  RightFrames : option dai.ImgFrame;
  RGBFrames : option dai.ImgFrame;
  inDet : option dai.ImgDetections;
  inNN : option dai.NNData;
  monotonic : Q;
  waitKey : Z
}.

Inductive Flow : Type :=
| Next
| Break.

(** [ord('q')] *)
Definition ord_q : Z := 113.

Local Open Scope stmt_scope.

(** Lines 151-196: the body of [while True]. *)
Definition loop_body (io : Tick) : M Locals Flow :=
  match LeftFrames io with
  | Some LeftFrames =>
      let lFrame := dai.getCvFrame LeftFrames in
      call (displayFrame "Left" lFrame [])
  | None => pass
  end ;;
  match RightFrames io with
  | Some RightFrames =>
      let rFrame := dai.getCvFrame RightFrames in
      call (displayFrame "Right" rFrame [])
  | None => pass
  end ;;
  match RGBFrames io with
  | Some RGBFrames =>
      modify (set_clrFrame (Some (dai.getCvFrame RGBFrames))) ;;
      let frame := dai.getCvFrame RGBFrames in
      count <- get counter ;;
      start <- get startTime ;;
      fps <- truediv count (monotonic io - start)%Q ;;
      col <- get color2 ;;
      modify (set_clrFrame
                (Some (cv2.putText frame (cv2.NN_fps fps)
                                   (2, cv2.shape0 frame - 4)
                                   cv2.FONT_HERSHEY_TRIPLEX (4 # 10) col)))
  | None => pass
  end ;;
  match inDet io with
  | Some inDet =>
      modify (set_detections (dai.detections inDet)) ;;
      count <- get counter ;;
      modify (set_counter (count + 1))
  | None => pass
  end ;;
  once <- get printOutputLayersOnce ;;
  match once, inNN io with
  | true, Some inNN =>
      call (print_neural_network_layer_names inNN) ;;
      modify (set_printOutputLayersOnce false)
  | _, _ => pass
  end ;;
  frame <- get clrFrame ;;
  match frame with
  | Some frame =>
      dets <- get detections ;;
      call (displayFrame "RGB Detection" frame dets)
  | None => pass
  end ;;
  ret (if waitKey io =? ord_q then Break else Next).

(** How a run of the loop over finitely many ticks stands at its end. *)
Inductive Status : Type :=
| Running
| Exited
| Crashed (e : exn).

(** Lines 148-196: [while True], fed the answers of the outside world one
    iteration at a time.  The ticks after a [break] or an exception are not
    consumed. *)
Fixpoint while_True (ticks : list Tick) (l : Locals)
  : Trace * Locals * Status :=
  match ticks with
  | [] => ([], l, Running)
  | io :: rest =>
      match loop_body io l with
      | (tr, l1, Ok Next) =>
          match while_True rest l1 with
          | (tr2, l2, st) => (tr ++ tr2, l2, st)
          end
      | (tr, l1, Ok Break) => (tr, l1, Exited)
      | (tr, l1, Raised e) => (tr, l1, Crashed e)
      end
  end.

(** Lines 137-145: the variables as they stand when the loop is entered;
    [t0] is the reading of [time.monotonic()] at line 139. *)
Definition initial_locals (config : Config) (t0 : Q) : Locals :=
  mkLocals None [] t0 0 (TEXT_COLOR2 config)
           (PRINT_NEURAL_NETWORK_METADATA config).

(** ** The pipeline builder *)

Definition node_eqb (a b : dai.Node) : bool := dai.id a =? dai.id b.

(** [pipeline.setOpenVINOVersion(v)] *)
Definition setOpenVINOVersion (v : dai.OpenVINO.Version) : M dai.Pipeline unit :=
  modify (fun p => dai.mkPipeline (Some v) (dai.nodes p) (dai.properties p)
                                  (dai.connections p)).

(** [pipeline.create(kind)]: the new node takes the next identifier. *)
Definition create (k : dai.node.Kind) : M dai.Pipeline dai.Node :=
  fun p =>
    let n := dai.mkNode (Z.of_nat (List.length (dai.nodes p))) k in
    ([], dai.mkPipeline (dai.openVINOVersion p) (dai.nodes p ++ [n])
                        (dai.properties p) (dai.connections p), Ok n).

(** A setter replaces what an earlier call of the same setter left on the
    node. *)
Definition set_property (n : dai.Node) (v : dai.Property)
  : M dai.Pipeline unit :=
  modify (fun p =>
    dai.mkPipeline (dai.openVINOVersion p) (dai.nodes p)
      (filter (fun nq => negb (node_eqb (fst nq) n
                               && dai.same_setter (snd nq) v))
              (dai.properties p) ++ [(n, v)])
      (dai.connections p)).

Definition setStreamName n name := set_property n (dai.StreamName name).
Definition setBoardSocket n socket := set_property n (dai.BoardSocket socket).
Definition setResolution n r := set_property n (dai.Resolution r).
(** [n.setPreviewSize(size)]: the two sizes are C ints. *)
Definition setPreviewSize (n : dai.Node) (size : Z * Z)
  : M dai.Pipeline unit :=
  if fits_int (fst size) && fits_int (snd size)
  then set_property n (dai.PreviewSize size)
  else raise TypeError.
Definition setInterleaved n b := set_property n (dai.Interleaved b).
Definition setColorOrder n o := set_property n (dai.ColorOrderOf o).
Definition setConfidenceThreshold n q :=
  set_property n (dai.ConfidenceThreshold q).
(** [n.setNumInferenceThreads(k)]: the count is a C int. *)
Definition setNumInferenceThreads (n : dai.Node) (k : Z)
  : M dai.Pipeline unit :=
  if fits_int k
  then set_property n (dai.NumInferenceThreads k)
  else raise TypeError.
(** [n.setBlobPath(path)] opens the file and loads the blob, there and
    then. *)
Definition setBlobPath (host : Host) (n : dai.Node) (path : string)
  : M dai.Pipeline unit :=
  match blob_at host path with
  | Some blob => set_property n (dai.BlobPath path blob)
  | None => raise RuntimeError
  end.
(** [n.input.setBlocking(b)] *)
Definition setBlocking n b := set_property n (dai.InputBlocking b).

(** [a.port.link(b.port')] *)
Definition link (src dst : dai.Node * dai.Port) : M dai.Pipeline unit :=
  modify (fun p =>
    dai.mkPipeline (dai.openVINOVersion p) (dai.nodes p) (dai.properties p)
                   (dai.connections p ++ [(src, dst)])).

(** Lines 19-93, run on the pipeline object made at line 19. *)
Definition setup_pipeline_on (config : Config) (host : Host)
  : M dai.Pipeline dai.Pipeline :=
  setOpenVINOVersion dai.OpenVINO.VERSION_2022_1 ;;
  monoCamLeftNode <- create dai.node.MonoCamera ;;
  monoCamRightNode <- create dai.node.MonoCamera ;;
  rgbCamNode <- create dai.node.ColorCamera ;;
  nn <- create dai.node.MobileNetDetectionNetwork ;;
  xOutLeft <- create dai.node.XLinkOut ;;
  xOutRight <- create dai.node.XLinkOut ;;
  xOutRGB <- create dai.node.XLinkOut ;;
  nnOut <- create dai.node.XLinkOut ;;
  nnNetworkOut <- create dai.node.XLinkOut ;;
  setStreamName xOutLeft "Left" ;;
  setStreamName xOutRight "Right" ;;
  setStreamName xOutRGB "RGB" ;;
  setStreamName nnOut "nn" ;;
  setStreamName nnNetworkOut "nnNet" ;;
  setBoardSocket monoCamRightNode dai.RIGHT ;;
  setBoardSocket monoCamLeftNode dai.LEFT ;;
  setResolution monoCamLeftNode dai.THE_480_P ;;
  setResolution monoCamRightNode dai.THE_480_P ;;
  setPreviewSize rgbCamNode (COLOR_CAMERA_PREVIEW_SIZE config) ;;
  setInterleaved rgbCamNode (CAMERA_INTERLEAVED config) ;;
  setColorOrder rgbCamNode dai.ColorOrder.RGB ;;
  setConfidenceThreshold nn (NN_THRESHOLD config) ;;
  setNumInferenceThreads nn (INFERENCE_THREADS config) ;;
  setBlobPath host nn (MOBILENET_DETECTION_MODEL_PATH config) ;;
  setBlocking nn false ;;
  link (monoCamLeftNode, dai.out) (xOutLeft, dai.input) ;;
  link (monoCamRightNode, dai.out) (xOutRight, dai.input) ;;
  link (rgbCamNode, dai.preview) (xOutRGB, dai.input) ;;
  link (rgbCamNode, dai.preview) (nn, dai.input) ;;
  link (nn, dai.out) (nnOut, dai.input) ;;
  link (nn, dai.outNetwork) (nnNetworkOut, dai.input) ;;
  get (fun pipeline => pipeline).

(** [setup_pipeline()]: the calls it made to the outside world and the
    pipeline it returns, or the exception that stopped it. *)
Definition setup_pipeline (config : Config) (host : Host)
  : Trace * Result dai.Pipeline :=
  match setup_pipeline_on config host dai.Pipeline_new with
  | (tr, _, r) => (tr, r)
  end.

(** ** Opening the device *)

(** The names given by [setStreamName], in the order they were given. *)
Definition stream_names (p : dai.Pipeline) : list string :=
  flat_map (fun nq =>
              match snd nq with
              | dai.StreamName name => [name]
              | _ => []
              end) (dai.properties p).

(** [dai.Device(pipeline=pipeline)] *)
Definition Device (host : Host) (pipeline : dai.Pipeline)
  : M unit dai.Device :=
  match connect host pipeline with
  | Some device => call (upload pipeline) ;; ret device
  | None => raise RuntimeError
  end.

(** [device.getOutputQueue(name, maxSize, blocking)]: [maxSize] is a C
    unsigned int, and the device has a queue only for the streams of the
    pipeline it runs. *)
Definition device_getOutputQueue (pipeline : dai.Pipeline) (name : string)
           (maxSize : Z) (blocking : bool) : M unit unit :=
  if fits_unsigned maxSize
  then if existsb (String.eqb name) (stream_names pipeline)
       then call (getOutputQueue name maxSize blocking)
       else raise RuntimeError
  else raise TypeError.

(** Lines 98-133: the upload, what is printed and which queues are
    opened. *)
Definition open_device (config : Config) (host : Host)
           (pipeline : dai.Pipeline) : M unit unit :=
  device <- Device host pipeline ;;
  call (print "MxID: " [dai.getMxId device]) ;;
  call (print "USB Speed: " [dai.getUsbSpeed device]) ;;
  call (print "Connected Cameras: " (dai.getConnectedCameras device)) ;;
  device_getOutputQueue pipeline "Left" (COLOR_CAMERA_QUEUE_SIZE config)
                        (QUEUE_BLOCKING config) ;;
  device_getOutputQueue pipeline "Right" (COLOR_CAMERA_QUEUE_SIZE config)
                        (QUEUE_BLOCKING config) ;;
  device_getOutputQueue pipeline "RGB" (COLOR_CAMERA_QUEUE_SIZE config)
                        (QUEUE_BLOCKING config) ;;
  device_getOutputQueue pipeline "nn" (COLOR_CAMERA_QUEUE_SIZE config)
                        (QUEUE_BLOCKING config) ;;
  device_getOutputQueue pipeline "nnNet" (COLOR_CAMERA_QUEUE_SIZE config)
                        (QUEUE_BLOCKING config).

(** [upload_pipeline(pipeline)], run for as long as [ticks] lasts: the
    calls made, the loop variables if the loop was reached, and how the
    run stands. *)
Definition upload_pipeline (config : Config) (host : Host)
           (t0 : Q) (ticks : list Tick) (pipeline : dai.Pipeline)
  : Trace * option Locals * Status :=
  match open_device config host pipeline tt with
  | (tr, _, Ok _) =>
      match while_True ticks (initial_locals config t0) with
      | (tr2, l, st) => (tr ++ tr2, Some l, st)
      end
  | (tr, _, Raised e) => (tr, None, Crashed e)
  end.

(** Lines 198-199: the script itself. *)
Definition main (config : Config) (host : Host) (t0 : Q)
           (ticks : list Tick) : Trace * option Locals * Status :=
  match setup_pipeline config host with
  | (tr, Ok pipeline) =>
      match upload_pipeline config host t0 ticks pipeline with
      | (tr2, l, st) => (tr ++ tr2, l, st)
      end
  | (tr, Raised e) => (tr, None, Crashed e)
  end.

(** ** Observing a run *)

(** The [displayFrame] calls of a trace made on the window [name]: the
    image and the overlay sequence of each, in order. *)
Definition renders (name : string) (tr : Trace)
  : list (cv2.Mat * list dai.ImgDetection) :=
  flat_map (fun e =>
              match e with
              | displayFrame n frame dets =>
                  if String.eqb n name then [(frame, dets)] else []
              | _ => []
              end) tr.

(** The layer-name dumps of a trace, in order. *)
Definition dumps (tr : Trace) : list dai.NNData :=
  flat_map (fun e =>
              match e with
              | print_neural_network_layer_names nn => [nn]
              | _ => []
              end) tr.

(** The clock has not moved since [t0] on a tick that reads it: line 174
    reads the clock only when a color frame was retrieved. *)
Definition stalls (t0 : Q) (io : Tick) : bool :=
  match RGBFrames io with
  | Some _ => Qeq_bool (monotonic io - t0) 0
  | None => false
  end.

(** Lines 172-177 applied to a frame: the caption with the quotient [v]. *)
Definition fps_overlay (frame : cv2.Mat) (v : Q) (col : cv2.Scalar) : cv2.Mat :=
  cv2.putText frame (cv2.NN_fps v) (2, cv2.shape0 frame - 4)
              cv2.FONT_HERSHEY_TRIPLEX (4 # 10) col.

(** The session as the specification describes it: the most recently
    received color frame and detection set of a sequence of ticks. *)
Definition latest_color_frame (ticks : list Tick) : option dai.ImgFrame :=
  fold_left (fun acc io =>
               match RGBFrames io with
               | Some m => Some m
               | None => acc
               end) ticks None.

Definition latest_detections (ticks : list Tick) : list dai.ImgDetection :=
  fold_left (fun acc io =>
               match inDet io with
               | Some d => dai.detections d
               | None => acc
               end) ticks [].

(** The number of detection messages received over a sequence of ticks. *)
Definition detections_received (ticks : list Tick) : Z :=
  fold_left (fun acc io =>
               match inDet io with
               | Some _ => acc + 1
               | None => acc
               end) ticks 0.

(** What the variables hold once the ticks [hist] of a session that began
    at [t0] under [config] have been consumed. *)
Definition tracks (config : Config) (t0 : Q) (hist : list Tick) (l : Locals)
  : Prop :=
  startTime l = t0
  /\ color2 l = TEXT_COLOR2 config
  /\ detections l = latest_detections hist
  /\ counter l = detections_received hist
  /\ match latest_color_frame hist with
     | Some m =>
         exists v, clrFrame l
                   = Some (fps_overlay (dai.getCvFrame m) v (TEXT_COLOR2 config))
     | None => clrFrame l = None
     end.

(** The tick [io] with nothing on the left and right queues. *)
Definition without_mono (io : Tick) : Tick :=
  mkTick None None (RGBFrames io) (inDet io) (inNN io) (monotonic io)
         (waitKey io).

(** The configuration constants that [setup_pipeline] reads. *)
Definition same_pipeline_settings (c1 c2 : Config) : Prop :=
  COLOR_CAMERA_PREVIEW_SIZE c1 = COLOR_CAMERA_PREVIEW_SIZE c2
  /\ CAMERA_INTERLEAVED c1 = CAMERA_INTERLEAVED c2
  /\ NN_THRESHOLD c1 = NN_THRESHOLD c2
  /\ INFERENCE_THREADS c1 = INFERENCE_THREADS c2
  /\ MOBILENET_DETECTION_MODEL_PATH c1 = MOBILENET_DETECTION_MODEL_PATH c2.

(** ** Observing a pipeline and the start of a session *)

(** The integers of a configuration that the SDK takes as C ints when the
    pipeline is built. *)
Definition accepted_integers (config : Config) : bool :=
  fits_int (fst (COLOR_CAMERA_PREVIEW_SIZE config))
  && fits_int (snd (COLOR_CAMERA_PREVIEW_SIZE config))
  && fits_int (INFERENCE_THREADS config).

(** The pipeline description as the specification lists it: two mono
    cameras, a color camera, a detection network and five stream-output
    adapters; the settings of each; the five stream names; the six
    links. *)
Definition described_pipeline (size : Z * Z) (interleaved : bool)
           (threshold : Q) (threads : Z) (path : string) (blob : dai.Blob)
  : dai.Pipeline :=
  let monoLeft := dai.mkNode 0 dai.node.MonoCamera in
  let monoRight := dai.mkNode 1 dai.node.MonoCamera in
  let rgb := dai.mkNode 2 dai.node.ColorCamera in
  let nn := dai.mkNode 3 dai.node.MobileNetDetectionNetwork in
  let outLeft := dai.mkNode 4 dai.node.XLinkOut in
  let outRight := dai.mkNode 5 dai.node.XLinkOut in
  let outRGB := dai.mkNode 6 dai.node.XLinkOut in
  let outDet := dai.mkNode 7 dai.node.XLinkOut in
  let outNet := dai.mkNode 8 dai.node.XLinkOut in
  dai.mkPipeline
    (Some dai.OpenVINO.VERSION_2022_1)
    [monoLeft; monoRight; rgb; nn; outLeft; outRight; outRGB; outDet; outNet]
    [ (outLeft, dai.StreamName "Left");
      (outRight, dai.StreamName "Right");
      (outRGB, dai.StreamName "RGB");
      (outDet, dai.StreamName "nn");
      (outNet, dai.StreamName "nnNet");
      (monoRight, dai.BoardSocket dai.RIGHT);
      (monoLeft, dai.BoardSocket dai.LEFT);
      (monoLeft, dai.Resolution dai.THE_480_P);
      (monoRight, dai.Resolution dai.THE_480_P);
      (rgb, dai.PreviewSize size);
      (rgb, dai.Interleaved interleaved);
      (rgb, dai.ColorOrderOf dai.ColorOrder.RGB);
      (nn, dai.ConfidenceThreshold threshold);
      (nn, dai.NumInferenceThreads threads);
      (nn, dai.BlobPath path blob);
      (nn, dai.InputBlocking false) ]
    [ ((monoLeft, dai.out), (outLeft, dai.input));
      ((monoRight, dai.out), (outRight, dai.input));
      ((rgb, dai.preview), (outRGB, dai.input));
      ((rgb, dai.preview), (nn, dai.input));
      ((nn, dai.out), (outDet, dai.input));
      ((nn, dai.outNetwork), (outNet, dai.input)) ].

(** The description for a configuration and the blob found at its model
    path. *)
Definition description_for (config : Config) (blob : dai.Blob)
  : dai.Pipeline :=
  described_pipeline (COLOR_CAMERA_PREVIEW_SIZE config)
                     (CAMERA_INTERLEAVED config) (NN_THRESHOLD config)
                     (INFERENCE_THREADS config)
                     (MOBILENET_DETECTION_MODEL_PATH config) blob.

(** The names [setStreamName] left on the node [n]. *)
Definition stream_names_of (p : dai.Pipeline) (n : dai.Node) : list string :=
  stream_names
    (dai.mkPipeline (dai.openVINOVersion p) (dai.nodes p)
       (filter (fun nq => node_eqb (fst nq) n) (dai.properties p))
       (dai.connections p)).

(** The links that end at the node [n]. *)
Definition links_into (p : dai.Pipeline) (n : dai.Node)
  : list ((dai.Node * dai.Port) * (dai.Node * dai.Port)) :=
  filter (fun l => node_eqb (fst (snd l)) n) (dai.connections p).

(** The links that start or end at the node [n]. *)
Definition links_at (p : dai.Pipeline) (n : dai.Node)
  : list ((dai.Node * dai.Port) * (dai.Node * dai.Port)) :=
  filter (fun l => node_eqb (fst (fst l)) n || node_eqb (fst (snd l)) n)
         (dai.connections p).

(** The board sockets set on the node [n]. *)
Definition sockets_of (p : dai.Pipeline) (n : dai.Node)
  : list dai.CameraBoardSocket :=
  flat_map (fun nq =>
              match snd nq with
              | dai.BoardSocket socket =>
                  if node_eqb (fst nq) n then [socket] else []
              | _ => []
              end) (dai.properties p).

(** What feeds the stream [name]: for each link into a node that carries
    this stream name, the kind of the node the link starts at, the board
    sockets set on that node, and the port the link leaves it by. *)
Definition stream_sources (p : dai.Pipeline) (name : string)
  : list (dai.node.Kind * list dai.CameraBoardSocket * dai.Port) :=
  flat_map (fun n =>
              if existsb (String.eqb name) (stream_names_of p n)
              then map (fun l => (dai.kind (fst (fst l)),
                                  sockets_of p (fst (fst l)),
                                  snd (fst l)))
                       (links_into p n)
              else [])
           (dai.nodes p).

(** What feeds the detection network: the kind and the port at the start
    of each link into a node of that kind. *)
Definition network_sources (p : dai.Pipeline)
  : list (dai.node.Kind * dai.Port) :=
  flat_map (fun l =>
              match dai.kind (fst (snd l)) with
              | dai.node.MobileNetDetectionNetwork =>
                  [(dai.kind (fst (fst l)), snd (fst l))]
              | _ => []
              end) (dai.connections p).



(** Whether a tick brings a detection message. *)
Definition brings_detections (io : Tick) : bool :=
  match inDet io with
  | Some _ => true
  | None => false
  end.

(** The [displayFrame] calls of lines 159-166 on a tick. *)
Definition mono_calls (io : Tick) : Trace :=
  match LeftFrames io with
  | Some m => [displayFrame "Left" (dai.getCvFrame m) []]
  | None => []
  end
  ++ match RightFrames io with
     | Some m => [displayFrame "Right" (dai.getCvFrame m) []]
     | None => []
     end.

(** ** Sample data

    The scenario of the specification: a color frame C1, then a detection
    set D1 of two boxes with no frame, then a color frame C2. *)

Definition sample_config : Config :=
  mkConfig (300, 300) false (1 # 2) 2 "mobilenet-ssd.blob" 4 false
           (255, 255, 255) true.

(** The same pipeline settings, other queue, color and print constants. *)
Definition other_config : Config :=
  mkConfig (300, 300) false (1 # 2) 2 "mobilenet-ssd.blob" 8 true
           (0, 255, 0) false.

Definition blob_B1 : dai.Blob := dai.mkBlob [77; 78; 79].

Definition device_OAK : dai.Device :=
  dai.mkDevice "14442C10D13EABCE00" "UsbSpeed.SUPER" ["RGB"; "LEFT"; "RIGHT"].

(** A host with the model file in place and a device connected. *)
Definition sample_host : Host :=
  mkHost (fun path =>
            if String.eqb path "mobilenet-ssd.blob" then Some blob_B1 else None)
         (fun _ => Some device_OAK).

(** The same host without the model file. *)
Definition host_without_blob : Host :=
  mkHost (fun _ => None) (fun _ => Some device_OAK).

(** The same host without a device. *)
Definition host_without_device : Host :=
  mkHost (fun path =>
            if String.eqb path "mobilenet-ssd.blob" then Some blob_B1 else None)
         (fun _ => None).

Definition frame_C1 : dai.ImgFrame :=
  dai.mkImgFrame (cv2.mkMat 300 [11; 12; 13] []).

Definition frame_C2 : dai.ImgFrame :=
  dai.mkImgFrame (cv2.mkMat 300 [21; 22; 23] []).

Definition frame_L1 : dai.ImgFrame :=
  dai.mkImgFrame (cv2.mkMat 480 [31; 32] []).

Definition set_D1 : dai.ImgDetections :=
  dai.mkImgDetections
    [ dai.mkImgDetection 15 (9 # 10) (1 # 10) (1 # 10) (1 # 2) (1 # 2);
      dai.mkImgDetection 7 (6 # 10) (1 # 2) (1 # 2) (9 # 10) (9 # 10) ].

Definition layers_N1 : dai.NNData :=
  dai.mkNNData ["detection_out"].

Definition no_key : Z := -1.

Definition tick_1 : Tick :=
  mkTick None None (Some frame_C1) None None (1 # 10) no_key.

Definition tick_2 : Tick :=
  mkTick None None None (Some set_D1) None (2 # 10) no_key.

Definition tick_3 : Tick :=
  mkTick None None (Some frame_C2) None None (3 # 10) no_key.

(** A left frame, detections and metadata together. *)
Definition tick_4 : Tick :=
  mkTick (Some frame_L1) None None (Some set_D1) (Some layers_N1) (4 # 10)
         no_key.

(** Metadata again, and the quit key. *)
Definition tick_5 : Tick :=
  mkTick None None None None (Some layers_N1) (5 # 10) ord_q.

(** A color frame read while the clock still shows the start time. *)
Definition tick_stalled_clock : Tick :=
  mkTick None None (Some frame_C1) (Some set_D1) None 0 no_key.

(** ** One iteration *)

Ltac unfold_tick :=
  cbv beta iota zeta delta
      [loop_body bind ret call get modify pass truediv raise
       trace_of state_of result_of fst snd
       set_clrFrame set_detections set_counter set_printOutputLayersOnce
       clrFrame detections startTime counter color2 printOutputLayersOnce
       stalls fps_overlay].

Ltac split_tick io l :=
  destruct io as [left right rgb det nn now key];
  destruct l as [frame dets t0 count col once];
  unfold_tick;
  cbv beta iota delta
      [LeftFrames RightFrames RGBFrames inDet inNN monotonic waitKey];
  destruct left, right, rgb, det, nn, once, frame;
  try match goal with
      | |- context [Qeq_bool ?a ?b] => destruct (Qeq_bool a b) eqn:?
      end;
  cbv beta iota; cbn [app].

(** An iteration whose clock reading is usable runs to its last line, and
    leaves the loop exactly when the key is [q]. *)
Lemma tick_flow io l :
  stalls (startTime l) io = false ->
  result_of (loop_body io l) = Ok (if waitKey io =? ord_q then Break else Next).
Proof.
  intros H; revert H.
  split_tick io l; intros H; try discriminate H; reflexivity.
Qed.

Lemma tick_stalled io l :
  stalls (startTime l) io = true ->
  result_of (loop_body io l) = Raised ZeroDivisionError.
Proof.
  intros H; revert H.
  split_tick io l; intros H; try discriminate H; reflexivity.
Qed.

Lemma tick_constants io l :
  startTime (state_of (loop_body io l)) = startTime l
  /\ color2 (state_of (loop_body io l)) = color2 l.
Proof. split_tick io l; split; reflexivity. Qed.

Lemma tick_clrFrame io l :
  stalls (startTime l) io = false ->
  clrFrame (state_of (loop_body io l)) =
  match RGBFrames io with
  | Some m =>
      Some (fps_overlay (dai.getCvFrame m)
              (inject_Z (counter l) / (monotonic io - startTime l))%Q
              (color2 l))
  | None => clrFrame l
  end.
Proof.
  intros H; revert H.
  split_tick io l; intros H; try discriminate H; reflexivity.
Qed.

Lemma tick_detections io l :
  stalls (startTime l) io = false ->
  detections (state_of (loop_body io l)) =
  match inDet io with
  | Some d => dai.detections d
  | None => detections l
  end.
Proof.
  intros H; revert H.
  split_tick io l; intros H; try discriminate H; reflexivity.
Qed.

Lemma tick_counter io l :
  stalls (startTime l) io = false ->
  counter (state_of (loop_body io l)) =
  match inDet io with
  | Some _ => counter l + 1
  | None => counter l
  end.
Proof.
  intros H; revert H.
  split_tick io l; intros H; try discriminate H; reflexivity.
Qed.

Lemma tick_latch io l :
  stalls (startTime l) io = false ->
  printOutputLayersOnce (state_of (loop_body io l)) =
  match inNN io with
  | Some _ => false
  | None => printOutputLayersOnce l
  end.
Proof.
  intros H; revert H.
  split_tick io l; intros H; try discriminate H; reflexivity.
Qed.

Lemma tick_dumps io l :
  dumps (trace_of (loop_body io l)) =
  if stalls (startTime l) io then []
  else match printOutputLayersOnce l, inNN io with
       | true, Some nn => [nn]
       | _, _ => []
       end.
Proof. split_tick io l; reflexivity. Qed.

Lemma tick_renders_rgb io l :
  renders "RGB Detection" (trace_of (loop_body io l)) =
  if stalls (startTime l) io then []
  else match clrFrame (state_of (loop_body io l)) with
       | Some frame => [(frame, detections (state_of (loop_body io l)))]
       | None => []
       end.
Proof. split_tick io l; reflexivity. Qed.

(** ** A run of the loop *)

Lemma while_True_step io rest l :
  while_True (io :: rest) l =
  match result_of (loop_body io l) with
  | Ok Next =>
      let r := while_True rest (state_of (loop_body io l)) in
      (trace_of (loop_body io l) ++ trace_of r, state_of r, result_of r)
  | Ok Break => (trace_of (loop_body io l), state_of (loop_body io l), Exited)
  | Raised e => (trace_of (loop_body io l), state_of (loop_body io l), Crashed e)
  end.
Proof.
  cbn [while_True].
  destruct (loop_body io l) as [[tr l1] [[|]|e]]; cbn; try reflexivity.
  destruct (while_True rest l1) as [[tr2 l2] st]; reflexivity.
Qed.

(** A run that is still going after [pre] goes on with what follows. *)
Lemma while_True_app pre rest l :
  result_of (while_True pre l) = Running ->
  while_True (pre ++ rest) l =
  (trace_of (while_True pre l)
     ++ trace_of (while_True rest (state_of (while_True pre l))),
   state_of (while_True rest (state_of (while_True pre l))),
   result_of (while_True rest (state_of (while_True pre l)))).
Proof.
  revert l; induction pre as [|io pre IH]; intros l.
  - intros _. cbn. destruct (while_True rest l) as [[tr l'] st]; reflexivity.
  - cbn [app]. rewrite !while_True_step.
    destruct (result_of (loop_body io l)) as [[|]|e]; cbn; try discriminate.
    intros H. rewrite (IH _ H). cbn. rewrite app_assoc. reflexivity.
Qed.

(** A run that has stopped does not look at what follows. *)
Lemma while_True_stopped pre rest l :
  result_of (while_True pre l) <> Running ->
  while_True (pre ++ rest) l = while_True pre l.
Proof.
  revert l; induction pre as [|io pre IH]; intros l.
  - cbn. intros H; now elim H.
  - cbn [app]. rewrite !while_True_step.
    destruct (result_of (loop_body io l)) as [[|]|e]; cbn; try reflexivity.
    intros H. rewrite (IH _ H).
    destruct (while_True pre _) as [[tr l'] st]; reflexivity.
Qed.

Lemma dumps_app tr1 tr2 : dumps (tr1 ++ tr2) = dumps tr1 ++ dumps tr2.
Proof. apply flat_map_app. Qed.

Lemma renders_app name tr1 tr2 :
  renders name (tr1 ++ tr2) = renders name tr1 ++ renders name tr2.
Proof. apply flat_map_app. Qed.

Lemma run_startTime ticks l :
  startTime (state_of (while_True ticks l)) = startTime l.
Proof.
  revert l; induction ticks as [|io rest IH]; intros l; [reflexivity|].
  rewrite while_True_step.
  destruct (result_of (loop_body io l)) as [[|]|e]; cbn;
    try apply tick_constants.
  change (startTime
            (state_of (while_True rest (state_of (loop_body io l))))
          = startTime l).
  rewrite IH. apply tick_constants.
Qed.

(** Once the latch is down no iteration dumps the layer names. *)
Lemma run_latch_down ticks l :
  printOutputLayersOnce l = false ->
  dumps (trace_of (while_True ticks l)) = [].
Proof.
  revert l; induction ticks as [|io rest IH]; intros l Hl; [reflexivity|].
  assert (Hd : dumps (trace_of (loop_body io l)) = []).
  { rewrite tick_dumps, Hl. now destruct (stalls _ _). }
  rewrite while_True_step.
  destruct (result_of (loop_body io l)) as [[|]|e] eqn:Hr; cbn; try exact Hd.
  change (dumps (trace_of (loop_body io l)
                   ++ trace_of (while_True rest (state_of (loop_body io l))))
          = []).
  rewrite dumps_app, Hd. cbn. apply IH.
  destruct (stalls (startTime l) io) eqn:Hs.
  - rewrite (tick_stalled _ _ Hs) in Hr. discriminate.
  - rewrite (tick_latch _ _ Hs), Hl. now destruct (inNN io).
Qed.

(** An iteration that dumps the layer names leaves the latch down. *)
Lemma tick_dump_lowers_latch io l :
  dumps (trace_of (loop_body io l)) <> [] ->
  printOutputLayersOnce (state_of (loop_body io l)) = false.
Proof.
  rewrite tick_dumps. destruct (stalls (startTime l) io) eqn:Hs.
  - intros H; now elim H.
  - rewrite (tick_latch _ _ Hs).
    destruct (printOutputLayersOnce l), (inNN io); intros H;
      try reflexivity; now elim H.
Qed.

Lemma run_dumps_at_most_once ticks l :
  (List.length (dumps (trace_of (while_True ticks l))) <= 1)%nat.
Proof.
  revert l; induction ticks as [|io rest IH]; intros l; [cbn; lia|].
  assert (H1 : (List.length (dumps (trace_of (loop_body io l))) <= 1)%nat).
  { rewrite tick_dumps.
    destruct (stalls _ _), (printOutputLayersOnce l), (inNN io); cbn; lia. }
  rewrite while_True_step.
  destruct (result_of (loop_body io l)) as [[|]|e]; cbn; try exact H1.
  change (List.length
            (dumps (trace_of (loop_body io l)
                      ++ trace_of (while_True rest (state_of (loop_body io l)))))
          <= 1)%nat.
  rewrite dumps_app, length_app.
  destruct (dumps (trace_of (loop_body io l))) as [|nn tl] eqn:Hd.
  - cbn. apply IH.
  - rewrite run_latch_down.
    + cbn in *. lia.
    + apply tick_dump_lowers_latch. rewrite Hd. discriminate.
Qed.

Lemma run_no_metadata pre l :
  Forall (fun io => inNN io = None) pre ->
  dumps (trace_of (while_True pre l)) = []
  /\ (result_of (while_True pre l) = Running ->
      printOutputLayersOnce (state_of (while_True pre l))
      = printOutputLayersOnce l).
Proof.
  intros H; revert l; induction H as [|io pre Hio _ IH]; intros l.
  - split; reflexivity.
  - assert (Hd : dumps (trace_of (loop_body io l)) = []).
    { rewrite tick_dumps, Hio.
      now destruct (stalls _ _), (printOutputLayersOnce l). }
    rewrite while_True_step.
    destruct (result_of (loop_body io l)) as [[|]|e] eqn:Hr; cbn;
      try (split; [exact Hd | discriminate]).
    destruct (IH (state_of (loop_body io l))) as [IH1 IH2].
    split.
    + change (dumps (trace_of (loop_body io l)
                       ++ trace_of (while_True pre (state_of (loop_body io l))))
              = []).
      rewrite dumps_app, Hd, IH1. reflexivity.
    + intros Hrun.
      change (printOutputLayersOnce
                (state_of (while_True pre (state_of (loop_body io l))))
              = printOutputLayersOnce l).
      rewrite (IH2 Hrun).
      destruct (stalls (startTime l) io) eqn:Hs.
      * rewrite (tick_stalled _ _ Hs) in Hr. discriminate.
      * rewrite (tick_latch _ _ Hs), Hio. reflexivity.
Qed.

(** ** The session seen from its history *)

Lemma latest_color_frame_snoc hist io :
  latest_color_frame (hist ++ [io]) =
  match RGBFrames io with
  | Some m => Some m
  | None => latest_color_frame hist
  end.
Proof. unfold latest_color_frame. rewrite fold_left_app. reflexivity. Qed.

Lemma latest_detections_snoc hist io :
  latest_detections (hist ++ [io]) =
  match inDet io with
  | Some d => dai.detections d
  | None => latest_detections hist
  end.
Proof. unfold latest_detections. rewrite fold_left_app. reflexivity. Qed.

Lemma detections_received_snoc hist io :
  detections_received (hist ++ [io]) =
  match inDet io with
  | Some _ => detections_received hist + 1
  | None => detections_received hist
  end.
Proof. unfold detections_received. rewrite fold_left_app. reflexivity. Qed.

Lemma tracks_initial config t0 : tracks config t0 [] (initial_locals config t0).
Proof. repeat split. Qed.

Lemma tracks_tick config t0 hist io l :
  tracks config t0 hist l ->
  stalls (startTime l) io = false ->
  tracks config t0 (hist ++ [io]) (state_of (loop_body io l)).
Proof.
  intros (Ht & Hc & Hd & Hn & Hf) Hs.
  destruct (tick_constants io l) as [E1 E2].
  unfold tracks.
  rewrite latest_color_frame_snoc, latest_detections_snoc,
    detections_received_snoc.
  rewrite (tick_detections _ _ Hs), (tick_counter _ _ Hs),
    (tick_clrFrame _ _ Hs).
  repeat split; try congruence.
  - destruct (inDet io); congruence.
  - destruct (inDet io); congruence.
  - destruct (RGBFrames io) as [m|]; [|exact Hf].
    eexists. rewrite Hc. reflexivity.
Qed.

Lemma tracks_run config t0 ticks : forall hist l,
  tracks config t0 hist l ->
  result_of (while_True ticks l) = Running ->
  tracks config t0 (hist ++ ticks) (state_of (while_True ticks l)).
Proof.
  induction ticks as [|io rest IH]; intros hist l Hl.
  - intros _. rewrite app_nil_r. exact Hl.
  - rewrite while_True_step.
    destruct (result_of (loop_body io l)) as [[|]|e] eqn:Hr; cbn;
      try discriminate.
    intros Hrun.
    change (tracks config t0 (hist ++ io :: rest)
              (state_of (while_True rest (state_of (loop_body io l))))).
    replace (hist ++ io :: rest) with ((hist ++ [io]) ++ rest)
      by (rewrite <- app_assoc; reflexivity).
    apply IH; [|exact Hrun].
    apply tracks_tick; [exact Hl|].
    destruct (stalls (startTime l) io) eqn:Hs; [|reflexivity].
    rewrite (tick_stalled _ _ Hs) in Hr. discriminate.
Qed.

(** The clock test of line 174 in terms of the two readings. *)
Lemma clock_moved_iff (now t0 : Q) :
  Qeq_bool (now - t0) 0 = false <-> ~ (now == t0)%Q.
Proof.
  split.
  - intros H E. apply Qeq_bool_neq in H. apply H. rewrite E. ring.
  - intros H. destruct (Qeq_bool (now - t0) 0) eqn:E; [|reflexivity].
    apply Qeq_bool_iff in E. elim H.
    setoid_replace now with ((now - t0) + t0)%Q by ring.
    rewrite E. ring.
Qed.

(** [break] is reached only on a tick whose key is [q]. *)
Lemma run_exited_has_quit_key ticks : forall l,
  result_of (while_True ticks l) = Exited ->
  existsb (fun io => waitKey io =? ord_q) ticks = true.
Proof.
  induction ticks as [|io rest IH]; intros l; [discriminate|].
  rewrite while_True_step. cbn [existsb].
  destruct (stalls (startTime l) io) eqn:Hs.
  - rewrite (tick_stalled _ _ Hs). discriminate.
  - rewrite (tick_flow _ _ Hs).
    destruct (waitKey io =? ord_q); [reflexivity|].
    cbn. apply IH.
Qed.

(** The only exception the loop itself raises is the division of line 174,
    on a tick that reads a clock that has not moved. *)
Lemma run_crashes_only_on_stalled_clock ticks : forall l e,
  result_of (while_True ticks l) = Crashed e ->
  e = ZeroDivisionError /\ existsb (stalls (startTime l)) ticks = true.
Proof.
  induction ticks as [|io rest IH]; intros l e; [discriminate|].
  rewrite while_True_step. cbn [existsb].
  destruct (stalls (startTime l) io) eqn:Hs.
  - rewrite (tick_stalled _ _ Hs). cbn. intros [= <-]. split; reflexivity.
  - rewrite (tick_flow _ _ Hs).
    destruct (waitKey io =? ord_q); [discriminate|].
    cbn. intros H. apply IH in H.
    destruct (tick_constants io l) as [E _]. rewrite E in H. exact H.
Qed.

Lemma run_without_stall ticks : forall l,
  Forall (fun io => stalls (startTime l) io = false) ticks ->
  result_of (while_True ticks l)
  = if existsb (fun io => waitKey io =? ord_q) ticks then Exited else Running.
Proof.
  induction ticks as [|io rest IH]; intros l Hall; [reflexivity|].
  inversion Hall as [|? ? Hio Hrest]; subst.
  rewrite while_True_step, (tick_flow _ _ Hio). cbn [existsb].
  destruct (waitKey io =? ord_q); cbn; [reflexivity|].
  apply IH.
  destruct (tick_constants io l) as [-> _]. exact Hrest.
Qed.

(** ** The claims *)

(** C1 (counterexample).  Tick 1 brings the color frame C1; tick 2 brings
    the detection set D1 and no color frame.  On tick 2 the loop does call
    [displayFrame] on the color window: it shows the frame kept from tick 1,
    still carrying the caption drawn on tick 1, under the two boxes of D1;
    and the frame is still held when tick 2 is over. *)
Lemma color_window_redrawn_without_new_frame :
  RGBFrames tick_2 = None
  /\ inDet tick_2 = Some set_D1
  /\ while_True [tick_1] (initial_locals sample_config 0)
     = ([displayFrame "RGB Detection"
           (fps_overlay (dai.getCvFrame frame_C1) 0 (255, 255, 255)) []],
        mkLocals
          (Some (fps_overlay (dai.getCvFrame frame_C1) 0 (255, 255, 255)))
          [] 0 0 (255, 255, 255) true,
        Running)
  /\ renders "RGB Detection"
       (trace_of
          (loop_body tick_2
             (state_of (while_True [tick_1] (initial_locals sample_config 0)))))
     = [(fps_overlay (dai.getCvFrame frame_C1) 0 (255, 255, 255),
         dai.detections set_D1)]
  /\ clrFrame
       (state_of
          (loop_body tick_2
             (state_of (while_True [tick_1] (initial_locals sample_config 0)))))
     = Some (fps_overlay (dai.getCvFrame frame_C1) 0 (255, 255, 255)).
Proof. repeat split. Qed.

(** C1 (amended).  On a tick that brings a detection message and no color
    frame, in a session where a color frame was retrieved earlier, the loop
    makes exactly one [displayFrame] call on the color window: it shows the
    most recent color frame, as captioned when it arrived, with the records
    of the new message as overlay.  The frame stays in [clrFrame] after the
    tick: only the single most recent color frame is kept, and it is kept
    across iterations. *)
Theorem retained_frame_rendered_with_new_detections :
  forall config t0 pre io m d,
    result_of (while_True pre (initial_locals config t0)) = Running ->
    latest_color_frame pre = Some m ->
    RGBFrames io = None ->
    inDet io = Some d ->
    exists v,
      clrFrame (state_of (while_True pre (initial_locals config t0)))
      = Some (fps_overlay (dai.getCvFrame m) v (TEXT_COLOR2 config))
      /\ renders "RGB Detection"
           (trace_of
              (loop_body io
                 (state_of (while_True pre (initial_locals config t0)))))
         = [(fps_overlay (dai.getCvFrame m) v (TEXT_COLOR2 config),
             dai.detections d)]
      /\ clrFrame
           (state_of
              (loop_body io
                 (state_of (while_True pre (initial_locals config t0)))))
         = Some (fps_overlay (dai.getCvFrame m) v (TEXT_COLOR2 config))
      /\ result_of
           (loop_body io
              (state_of (while_True pre (initial_locals config t0))))
         = Ok (if waitKey io =? ord_q then Break else Next).
Proof.
  intros config t0 pre io m d Hrun Hm Hrgb Hdet.
  pose proof (tracks_run config t0 pre [] _ (tracks_initial config t0) Hrun)
    as (_ & _ & _ & _ & Hf).
  cbn [app] in Hf. rewrite Hm in Hf. destruct Hf as [v Hv].
  set (l := state_of (while_True pre (initial_locals config t0))) in *.
  assert (Hs : stalls (startTime l) io = false)
    by (unfold stalls; now rewrite Hrgb).
  exists v. split; [exact Hv|].
  rewrite tick_renders_rgb, Hs, (tick_clrFrame _ _ Hs),
    (tick_detections _ _ Hs), (tick_flow _ _ Hs), Hrgb, Hdet, Hv.
  repeat split.
Qed.

Lemma retained_frame_rendered_with_new_detections_witness :
  exists v,
    clrFrame (state_of (while_True [tick_1] (initial_locals sample_config 0)))
    = Some (fps_overlay (dai.getCvFrame frame_C1) v (TEXT_COLOR2 sample_config))
    /\ renders "RGB Detection"
         (trace_of
            (loop_body tick_2
               (state_of (while_True [tick_1] (initial_locals sample_config 0)))))
       = [(fps_overlay (dai.getCvFrame frame_C1) v (TEXT_COLOR2 sample_config),
           dai.detections set_D1)]
    /\ clrFrame
         (state_of
            (loop_body tick_2
               (state_of (while_True [tick_1] (initial_locals sample_config 0)))))
       = Some (fps_overlay (dai.getCvFrame frame_C1) v (TEXT_COLOR2 sample_config))
    /\ result_of
         (loop_body tick_2
            (state_of (while_True [tick_1] (initial_locals sample_config 0))))
       = Ok (if waitKey tick_2 =? ord_q then Break else Next).
Proof.
  apply (retained_frame_rendered_with_new_detections
           sample_config 0 [tick_1] tick_2 frame_C1 set_D1); reflexivity.
Defined.

(** C2.  On every tick that brings a color frame, whether or not a
    detection message comes with it, and whenever the clock has moved since
    the loop started (the quotient of line 174 has a value), the iteration
    runs to its end and [clrFrame] holds that frame with the caption drawn
    on it at (2, height - 4): the value of [counter] when the frame is
    handled (the messages of earlier ticks) divided by the time elapsed
    since [startTime]. *)
Theorem color_frame_stored_with_fps_overlay :
  forall io l m,
    RGBFrames io = Some m ->
    ~ (monotonic io == startTime l)%Q ->
    result_of (loop_body io l) = Ok (if waitKey io =? ord_q then Break else Next)
    /\ clrFrame (state_of (loop_body io l))
       = Some (cv2.putText
                 (dai.getCvFrame m)
                 (cv2.NN_fps
                    (inject_Z (counter l) / (monotonic io - startTime l))%Q)
                 (2, cv2.shape0 (dai.getCvFrame m) - 4)
                 cv2.FONT_HERSHEY_TRIPLEX (4 # 10) (color2 l)).
Proof.
  intros io l m Hrgb Hclock.
  assert (Hs : stalls (startTime l) io = false).
  { unfold stalls. rewrite Hrgb. now apply clock_moved_iff. }
  split.
  - now apply tick_flow.
  - rewrite (tick_clrFrame _ _ Hs), Hrgb. reflexivity.
Qed.

Lemma color_frame_stored_with_fps_overlay_witness :
  result_of
    (loop_body tick_3
       (state_of (while_True [tick_1; tick_2] (initial_locals sample_config 0))))
  = Ok Next
  /\ clrFrame
       (state_of
          (loop_body tick_3
             (state_of
                (while_True [tick_1; tick_2] (initial_locals sample_config 0)))))
     = Some (cv2.putText (dai.getCvFrame frame_C2)
               (cv2.NN_fps (inject_Z 1 / ((3 # 10) - 0))%Q)
               (2, 296) 4 (4 # 10) (255, 255, 255)).
Proof.
  apply (color_frame_stored_with_fps_overlay
           tick_3
           (state_of (while_True [tick_1; tick_2]
                                 (initial_locals sample_config 0)))
           frame_C2).
  - reflexivity.
  - intros E. discriminate E.
Defined.

(** C3.  On every tick that brings a detection message and whose iteration
    is not stopped at line 174, [detections] becomes the list of records of
    the message, whatever was there before, and [counter] grows by exactly
    one, however many records the message has. *)
Theorem detection_message_replaces_and_counts :
  forall io l d,
    inDet io = Some d ->
    stalls (startTime l) io = false ->
    result_of (loop_body io l) = Ok (if waitKey io =? ord_q then Break else Next)
    /\ detections (state_of (loop_body io l)) = dai.detections d
    /\ counter (state_of (loop_body io l)) = counter l + 1.
Proof.
  intros io l d Hdet Hs.
  rewrite (tick_flow _ _ Hs), (tick_detections _ _ Hs), (tick_counter _ _ Hs),
    Hdet.
  repeat split.
Qed.

Lemma detection_message_replaces_and_counts_witness :
  result_of
    (loop_body (mkTick None None (Some frame_C2) (Some (dai.mkImgDetections []))
                       None (7 # 10) no_key)
       (state_of (while_True [tick_1; tick_2] (initial_locals sample_config 0))))
  = Ok Next
  /\ detections
       (state_of
          (loop_body (mkTick None None (Some frame_C2)
                             (Some (dai.mkImgDetections [])) None (7 # 10)
                             no_key)
             (state_of
                (while_True [tick_1; tick_2] (initial_locals sample_config 0)))))
     = []
  /\ counter
       (state_of
          (loop_body (mkTick None None (Some frame_C2)
                             (Some (dai.mkImgDetections [])) None (7 # 10)
                             no_key)
             (state_of
                (while_True [tick_1; tick_2] (initial_locals sample_config 0)))))
     = 2.
Proof.
  apply (detection_message_replaces_and_counts
           (mkTick None None (Some frame_C2) (Some (dai.mkImgDetections []))
                   None (7 # 10) no_key)
           (state_of (while_True [tick_1; tick_2]
                                 (initial_locals sample_config 0)))
           (dai.mkImgDetections []));
    reflexivity.
Defined.

(** C4.  A queue that gives no message on a tick leaves its part of the
    state as it was, also when the iteration is stopped at line 174: no
    color frame, [clrFrame] unchanged; no detection message, [detections]
    and [counter] unchanged; no metadata message, [printOutputLayersOnce]
    unchanged.  The left and right queues have no state of their own: the
    variables after the tick are the same as on a tick without their
    messages. *)
Theorem absent_message_leaves_state :
  forall io l,
    (RGBFrames io = None ->
     clrFrame (state_of (loop_body io l)) = clrFrame l)
    /\ (inDet io = None ->
        detections (state_of (loop_body io l)) = detections l
        /\ counter (state_of (loop_body io l)) = counter l)
    /\ (inNN io = None ->
        printOutputLayersOnce (state_of (loop_body io l))
        = printOutputLayersOnce l)
    /\ state_of (loop_body io l) = state_of (loop_body (without_mono io) l).
Proof.
  intros io l. unfold without_mono.
  split_tick io l; repeat split; intros; try discriminate; reflexivity.
Qed.

(** C5.  Over any run of the loop, from any values of the variables, the
    layer names are dumped at most once.  When the flag is set on entry,
    the dump is made on the first tick that brings a metadata message (if
    the run gets that far and the iteration is not stopped at line 174): no
    dump before it, one dump of that message on it, and none on any tick
    after it, whatever those ticks bring; the configuration constant is
    never read again.  When the flag is not set on entry, nothing is ever
    dumped. *)
Theorem layer_names_dumped_at_most_once :
  forall ticks l,
    (List.length (dumps (trace_of (while_True ticks l))) <= 1)%nat
    /\ (printOutputLayersOnce l = false ->
        dumps (trace_of (while_True ticks l)) = [])
    /\ (forall pre io post nn,
           ticks = pre ++ io :: post ->
           printOutputLayersOnce l = true ->
           Forall (fun t => inNN t = None) pre ->
           inNN io = Some nn ->
           result_of (while_True pre l) = Running ->
           stalls (startTime l) io = false ->
           dumps (trace_of (while_True pre l)) = []
           /\ dumps (trace_of (loop_body io (state_of (while_True pre l))))
              = [nn]
           /\ dumps (trace_of
                       (while_True post
                          (state_of
                             (loop_body io (state_of (while_True pre l))))))
              = []
           /\ dumps (trace_of (while_True ticks l)) = [nn]).
Proof.
  intros ticks l. split; [apply run_dumps_at_most_once|].
  split; [apply run_latch_down|].
  intros pre io post nn -> Hflag Hpre Hnn Hrun Hs.
  destruct (run_no_metadata pre l Hpre) as [Hd Hlatch].
  specialize (Hlatch Hrun).
  set (l1 := state_of (while_True pre l)) in *.
  assert (Hs1 : stalls (startTime l1) io = false).
  { unfold l1. rewrite run_startTime. exact Hs. }
  assert (Hio : dumps (trace_of (loop_body io l1)) = [nn]).
  { rewrite tick_dumps, Hs1, Hlatch, Hflag, Hnn. reflexivity. }
  assert (Hpost : dumps (trace_of (while_True post (state_of (loop_body io l1))))
                  = []).
  { apply run_latch_down. apply tick_dump_lowers_latch.
    rewrite Hio. discriminate. }
  repeat split; try assumption.
  rewrite (while_True_app pre (io :: post) l Hrun).
  change (dumps (trace_of (while_True pre l)
                   ++ trace_of (while_True (io :: post) l1)) = [nn]).
  rewrite dumps_app, Hd, while_True_step.
  destruct (result_of (loop_body io l1)) as [[|]|e]; cbn; try exact Hio.
  change (dumps (trace_of (loop_body io l1)
                   ++ trace_of (while_True post (state_of (loop_body io l1))))
          = [nn]).
  rewrite dumps_app, Hio, Hpost. reflexivity.
Qed.

Lemma layer_names_dumped_at_most_once_witness :
  dumps (trace_of (while_True [tick_1; tick_2] (initial_locals sample_config 0)))
  = []
  /\ dumps (trace_of
              (loop_body tick_4
                 (state_of
                    (while_True [tick_1; tick_2]
                                (initial_locals sample_config 0)))))
     = [layers_N1]
  /\ dumps (trace_of
              (while_True [tick_4; tick_5]
                 (state_of
                    (loop_body tick_4
                       (state_of
                          (while_True [tick_1; tick_2]
                                      (initial_locals sample_config 0)))))))
     = []
  /\ dumps (trace_of
              (while_True [tick_1; tick_2; tick_4; tick_4; tick_5]
                          (initial_locals sample_config 0)))
     = [layers_N1].
Proof.
  apply (proj2 (proj2 (layer_names_dumped_at_most_once
                         [tick_1; tick_2; tick_4; tick_4; tick_5]
                         (initial_locals sample_config 0)))
           [tick_1; tick_2] tick_4 [tick_4; tick_5] layers_N1);
    try reflexivity.
  repeat constructor.
Defined.

(** C6.  In a session started from the initial variables, every
    [displayFrame] call on the color window shows the most recently
    received color frame (with the caption drawn when it arrived) and
    passes as overlay the records of the most recently received detection
    message, the empty list when none has arrived yet.  Each of the two is
    the latest of its own stream, whatever tick it came on. *)
Theorem color_render_pairs_latest :
  forall config t0 pre io frame dets,
    result_of (while_True pre (initial_locals config t0)) = Running ->
    In (frame, dets)
       (renders "RGB Detection"
          (trace_of
             (loop_body io
                (state_of (while_True pre (initial_locals config t0)))))) ->
    (exists m v,
        latest_color_frame (pre ++ [io]) = Some m
        /\ frame = fps_overlay (dai.getCvFrame m) v (TEXT_COLOR2 config))
    /\ dets = latest_detections (pre ++ [io]).
Proof.
  intros config t0 pre io frame dets Hrun Hin.
  pose proof (tracks_run config t0 pre [] _ (tracks_initial config t0) Hrun)
    as Hl.
  cbn [app] in Hl.
  set (l := state_of (while_True pre (initial_locals config t0))) in *.
  rewrite tick_renders_rgb in Hin.
  destruct (stalls (startTime l) io) eqn:Hs; [destruct Hin|].
  destruct (tracks_tick config t0 pre io l Hl Hs) as (_ & _ & Hd & _ & Hf).
  destruct (clrFrame (state_of (loop_body io l))) as [f|] eqn:Hc;
    [|destruct Hin].
  destruct Hin as [Hin|[]]. injection Hin as <- <-.
  split; [|exact Hd].
  destruct (latest_color_frame (pre ++ [io])) as [m|]; [|discriminate Hf].
  destruct Hf as [v Hv]. exists m, v. split; [reflexivity|congruence].
Qed.

Lemma color_render_pairs_latest_witness :
  (exists m v,
      latest_color_frame ([tick_1] ++ [tick_2]) = Some m
      /\ fps_overlay (dai.getCvFrame frame_C1) 0 (255, 255, 255)
         = fps_overlay (dai.getCvFrame m) v (TEXT_COLOR2 sample_config))
  /\ dai.detections set_D1 = latest_detections ([tick_1] ++ [tick_2]).
Proof.
  apply (color_render_pairs_latest sample_config 0 [tick_1] tick_2).
  - reflexivity.
  - left. reflexivity.
Defined.

(** C7.  A left or right frame retrieved on a tick is shown on its window
    during that tick with the empty overlay list, whatever the variables
    hold and whatever else the tick brings; nothing else is ever shown on
    those windows. *)
Theorem mono_frames_rendered_unannotated :
  forall io l,
    renders "Left" (trace_of (loop_body io l))
    = match LeftFrames io with
      | Some m => [(dai.getCvFrame m, [])]
      | None => []
      end
    /\ renders "Right" (trace_of (loop_body io l))
       = match RightFrames io with
         | Some m => [(dai.getCvFrame m, [])]
         | None => []
         end.
Proof. intros io l. split_tick io l; split; reflexivity. Qed.

(** C8.  The loop is left by [break] only, and [break] is taken only when
    [cv2.waitKey(1)] gives the code of [q]: a run that has left the loop
    saw that key.  Over any number of ticks on which the quotient of line
    174 has a value, the run has ended exactly when one of the ticks had
    that key, and is still going otherwise: the number of iterations, the
    queues and the messages play no part. *)
Theorem loop_leaves_only_on_quit_key :
  forall ticks l,
    (result_of (while_True ticks l) = Exited ->
     existsb (fun io => waitKey io =? ord_q) ticks = true)
    /\ (Forall (fun io => stalls (startTime l) io = false) ticks ->
        result_of (while_True ticks l)
        = if existsb (fun io => waitKey io =? ord_q) ticks
          then Exited else Running).
Proof.
  intros ticks l. split.
  - apply run_exited_has_quit_key.
  - apply run_without_stall.
Qed.

Lemma loop_leaves_only_on_quit_key_witness :
  result_of (while_True [tick_1; tick_2; tick_3; tick_4]
                        (initial_locals sample_config 0)) = Running
  /\ result_of (while_True [tick_1; tick_2; tick_5; tick_3; tick_4]
                           (initial_locals sample_config 0)) = Exited.
Proof.
  split.
  - apply (proj2 (loop_leaves_only_on_quit_key
                    [tick_1; tick_2; tick_3; tick_4]
                    (initial_locals sample_config 0))).
    repeat constructor.
  - apply (proj2 (loop_leaves_only_on_quit_key
                    [tick_1; tick_2; tick_5; tick_3; tick_4]
                    (initial_locals sample_config 0))).
    repeat constructor.
Defined.

(** The builder on a host that has the blob, with integers the SDK takes:
    no outside call, no exception, and the pipeline of the description. *)
Lemma setup_pipeline_builds config host blob :
  blob_at host (MOBILENET_DETECTION_MODEL_PATH config) = Some blob ->
  accepted_integers config = true ->
  setup_pipeline config host = ([], Ok (description_for config blob)).
Proof.
  destruct config as [[w h] il th n path q b col pr].
  unfold accepted_integers. cbn [COLOR_CAMERA_PREVIEW_SIZE INFERENCE_THREADS
    MOBILENET_DETECTION_MODEL_PATH fst snd].
  intros Hblob Hints.
  apply andb_true_iff in Hints. destruct Hints as [Hsize Hn].
  unfold setup_pipeline, setup_pipeline_on, setPreviewSize,
    setNumInferenceThreads, setBlobPath.
  cbn [COLOR_CAMERA_PREVIEW_SIZE INFERENCE_THREADS
    MOBILENET_DETECTION_MODEL_PATH CAMERA_INTERLEAVED NN_THRESHOLD fst snd].
  rewrite Hblob, Hsize, Hn.
  vm_compute. reflexivity.
Qed.

(** C9 (counterexample).  Two runs of [setup_pipeline] with the same
    configuration: on a host where the model file is in place the builder
    returns the pipeline; on a host where it is missing, line 76 raises and
    no pipeline is returned. *)
Lemma setup_pipeline_depends_on_model_file :
  setup_pipeline sample_config sample_host
  = ([], Ok (description_for sample_config blob_B1))
  /\ setup_pipeline sample_config host_without_blob
     = ([], Raised RuntimeError).
Proof. split; vm_compute; reflexivity. Qed.

(** C9 (amended).  The pipeline is fixed by the configuration constants
    the builder reads and by the blob behind the model path: two runs whose
    configurations agree on preview size, interleave flag, confidence
    threshold, inference thread count and model path (resolution and color
    order are written in the function itself), whose integers the SDK
    takes, and which find the same blob at the model path, both return the
    pipeline of the description: the same nodes, settings, stream names
    and links, whatever the other constants are.  Neither run makes a call
    to the outside world; reading the model file is all the builder does
    outside its own objects. *)
Theorem setup_pipeline_fixed_by_settings_and_blob :
  forall c1 c2 host1 host2 blob,
    same_pipeline_settings c1 c2 ->
    accepted_integers c1 = true ->
    blob_at host1 (MOBILENET_DETECTION_MODEL_PATH c1) = Some blob ->
    blob_at host2 (MOBILENET_DETECTION_MODEL_PATH c2) = Some blob ->
    setup_pipeline c1 host1 = ([], Ok (description_for c1 blob))
    /\ setup_pipeline c2 host2 = ([], Ok (description_for c1 blob)).
Proof.
  intros c1 c2 host1 host2 blob (Hsize & Hil & Hth & Hn & Hpath) Hints H1 H2.
  split; [now apply setup_pipeline_builds|].
  assert (Hd : description_for c1 blob = description_for c2 blob).
  { unfold description_for. now rewrite Hsize, Hil, Hth, Hn, Hpath. }
  rewrite Hd. apply setup_pipeline_builds; [exact H2|].
  unfold accepted_integers in *. now rewrite <- Hsize, <- Hn.
Qed.

Lemma setup_pipeline_fixed_by_settings_and_blob_witness :
  setup_pipeline sample_config sample_host
  = ([], Ok (description_for sample_config blob_B1))
  /\ setup_pipeline other_config host_without_device
     = ([], Ok (description_for sample_config blob_B1)).
Proof.
  apply (setup_pipeline_fixed_by_settings_and_blob
           sample_config other_config sample_host host_without_device blob_B1).
  - repeat split.
  - reflexivity.
  - reflexivity.
  - reflexivity.
Defined.

(** C10.  Line 174 divides by the elapsed time without testing it.  On a
    tick that brings a color frame the iteration raises
    [ZeroDivisionError] exactly when the clock reading equals [startTime];
    so, the clock never going backwards, the iteration runs to its end
    exactly when the elapsed time is strictly positive. *)
Theorem fps_division_unguarded :
  forall io l m,
    RGBFrames io = Some m ->
    (result_of (loop_body io l) = Raised ZeroDivisionError
     <-> (monotonic io == startTime l)%Q)
    /\ ((startTime l <= monotonic io)%Q ->
        ((exists flow, result_of (loop_body io l) = Ok flow)
         <-> (startTime l < monotonic io)%Q)).
Proof.
  intros io l m Hrgb.
  assert (Hraise : result_of (loop_body io l) = Raised ZeroDivisionError
                   <-> (monotonic io == startTime l)%Q).
  { destruct (stalls (startTime l) io) eqn:Hs.
    - rewrite (tick_stalled _ _ Hs). split; [intros _|reflexivity].
      unfold stalls in Hs. rewrite Hrgb in Hs.
      destruct (Qeq_dec (monotonic io) (startTime l)) as [E|N]; [exact E|].
      apply clock_moved_iff in N. congruence.
    - rewrite (tick_flow _ _ Hs). split; [discriminate|].
      intros E. unfold stalls in Hs. rewrite Hrgb in Hs.
      apply clock_moved_iff in Hs. contradiction. }
  split; [exact Hraise|].
  intros Hle. split.
  - intros [flow Hok].
    apply Qle_lteq in Hle. destruct Hle as [Hlt|Heq]; [exact Hlt|].
    symmetry in Heq. apply Hraise in Heq. congruence.
  - intros Hlt. exists (if waitKey io =? ord_q then Break else Next).
    apply tick_flow. unfold stalls. rewrite Hrgb.
    apply clock_moved_iff. intros E. rewrite E in Hlt.
    exact (Qlt_irrefl _ Hlt).
Qed.

Lemma fps_division_unguarded_witness :
  (result_of (loop_body tick_stalled_clock (initial_locals sample_config 0))
   = Raised ZeroDivisionError
   <-> (monotonic tick_stalled_clock
        == startTime (initial_locals sample_config 0))%Q)
  /\ ((startTime (initial_locals sample_config 0)
       <= monotonic tick_stalled_clock)%Q ->
      ((exists flow,
           result_of
             (loop_body tick_stalled_clock (initial_locals sample_config 0))
           = Ok flow)
       <-> (startTime (initial_locals sample_config 0)
            < monotonic tick_stalled_clock)%Q)).
Proof.
  apply (fps_division_unguarded tick_stalled_clock
           (initial_locals sample_config 0) frame_C1).
  reflexivity.
Defined.

(** ** Further properties of the loop *)

Lemma tick_always io l :
  startTime (state_of (loop_body io l)) = startTime l
  /\ color2 (state_of (loop_body io l)) = color2 l
  /\ counter l <= counter (state_of (loop_body io l))
  /\ (printOutputLayersOnce (state_of (loop_body io l)) = true ->
      printOutputLayersOnce l = true)
  /\ (clrFrame l <> None -> clrFrame (state_of (loop_body io l)) <> None).
Proof.
  split_tick io l; repeat split; intros; try lia; try assumption;
    try discriminate.
Qed.

Lemma count_detections_from ticks : forall a,
  fold_left (fun acc io =>
               match inDet io with
               | Some _ => acc + 1
               | None => acc
               end) ticks a
  = a + Z.of_nat (List.length (filter brings_detections ticks)).
Proof.
  induction ticks as [|io rest IH]; intros a; cbn [fold_left filter].
  - cbn. lia.
  - rewrite IH. unfold brings_detections at 2.
    destruct (inDet io); cbn [List.length]; lia.
Qed.

Lemma tick_completed_not_stalled io l flow :
  result_of (loop_body io l) = Ok flow -> stalls (startTime l) io = false.
Proof.
  intros Hr. destruct (stalls (startTime l) io) eqn:Hs; [|reflexivity].
  rewrite (tick_stalled _ _ Hs) in Hr. discriminate.
Qed.

Lemma tick_renders_rgb_count io l :
  stalls (startTime l) io = false ->
  clrFrame l <> None ->
  List.length (renders "RGB Detection" (trace_of (loop_body io l))) = 1%nat.
Proof.
  intros Hs Hf. rewrite tick_renders_rgb, Hs.
  destruct (tick_always io l) as (_ & _ & _ & _ & Hkeep).
  specialize (Hkeep Hf).
  destruct (clrFrame (state_of (loop_body io l))); [reflexivity|].
  now elim Hkeep.
Qed.

(** X1.  While the loop is running, [counter] has grown by exactly the
    number of ticks that brought a detection message, whatever else those
    ticks brought and however many records the messages held. *)
Theorem counter_counts_detection_messages :
  forall ticks l,
    result_of (while_True ticks l) = Running ->
    counter (state_of (while_True ticks l))
    = counter l + Z.of_nat (List.length (filter brings_detections ticks)).
Proof.
  induction ticks as [|io rest IH]; intros l.
  - intros _. cbn. lia.
  - rewrite while_True_step.
    destruct (result_of (loop_body io l)) as [[|]|e] eqn:Hr; cbn [result_of snd];
      try discriminate.
    intros Hrun.
    change (counter (state_of (while_True rest (state_of (loop_body io l))))
            = counter l
              + Z.of_nat (List.length (filter brings_detections (io :: rest)))).
    rewrite (IH _ Hrun).
    rewrite (tick_counter _ _ (tick_completed_not_stalled _ _ _ Hr)).
    cbn [filter]. unfold brings_detections at 2.
    destruct (inDet io); cbn [List.length]; lia.
Qed.

Lemma counter_counts_detection_messages_witness :
  counter (state_of (while_True [tick_1; tick_2; tick_3; tick_4]
                                (initial_locals sample_config 0)))
  = 0 + 2.
Proof.
  apply (counter_counts_detection_messages
           [tick_1; tick_2; tick_3; tick_4] (initial_locals sample_config 0)).
  reflexivity.
Defined.

(** X2.  When a color frame and a detection message come on the same tick,
    the frame is displayed in that iteration under the records of the new
    message, but the caption drawn on it counts only the messages of the
    earlier ticks: the division of line 174 runs before the count of line
    183. *)
Theorem caption_counts_earlier_messages_only :
  forall config t0 pre io m d,
    result_of (while_True pre (initial_locals config t0)) = Running ->
    RGBFrames io = Some m ->
    inDet io = Some d ->
    ~ (monotonic io == t0)%Q ->
    renders "RGB Detection"
      (trace_of
         (loop_body io (state_of (while_True pre (initial_locals config t0)))))
    = [(fps_overlay
          (dai.getCvFrame m)
          (inject_Z (Z.of_nat (List.length (filter brings_detections pre)))
           / (monotonic io - t0))%Q
          (TEXT_COLOR2 config),
        dai.detections d)]
    /\ counter
         (state_of
            (loop_body io
               (state_of (while_True pre (initial_locals config t0)))))
       = Z.of_nat (List.length (filter brings_detections pre)) + 1.
Proof.
  intros config t0 pre io m d Hrun Hrgb Hdet Hclock.
  pose proof (tracks_run config t0 pre [] _ (tracks_initial config t0) Hrun)
    as (Ht & Hc & _ & Hn & _).
  cbn [app] in Hn.
  unfold detections_received in Hn. rewrite count_detections_from in Hn.
  set (l := state_of (while_True pre (initial_locals config t0))) in *.
  assert (Hs : stalls (startTime l) io = false).
  { unfold stalls. rewrite Hrgb, Ht. now apply clock_moved_iff. }
  rewrite tick_renders_rgb, Hs, (tick_clrFrame _ _ Hs),
    (tick_detections _ _ Hs), (tick_counter _ _ Hs), Hrgb, Hdet, Hn, Ht, Hc.
  split; reflexivity.
Qed.

Lemma caption_counts_earlier_messages_only_witness :
  renders "RGB Detection"
    (trace_of
       (loop_body (mkTick None None (Some frame_C2) (Some set_D1) None
                          (1 # 2) no_key)
          (state_of (while_True [tick_1; tick_2] (initial_locals sample_config 0)))))
  = [(fps_overlay (dai.getCvFrame frame_C2)
        (inject_Z 1 / ((1 # 2) - 0))%Q (255, 255, 255),
      dai.detections set_D1)]
  /\ counter
       (state_of
          (loop_body (mkTick None None (Some frame_C2) (Some set_D1) None
                             (1 # 2) no_key)
             (state_of
                (while_True [tick_1; tick_2] (initial_locals sample_config 0)))))
     = 1 + 1.
Proof.
  apply (caption_counts_earlier_messages_only
           sample_config 0 [tick_1; tick_2]
           (mkTick None None (Some frame_C2) (Some set_D1) None (1 # 2) no_key)
           frame_C2 set_D1); try reflexivity.
  intros E. discriminate E.
Defined.

(** X3.  As long as no color frame has arrived, the color window is never
    drawn, [clrFrame] stays [None], and the loop cannot raise: it has ended
    exactly when one of the ticks had the key [q]. *)
Theorem no_color_call_before_first_frame :
  forall ticks l,
    clrFrame l = None ->
    Forall (fun io => RGBFrames io = None) ticks ->
    renders "RGB Detection" (trace_of (while_True ticks l)) = []
    /\ clrFrame (state_of (while_True ticks l)) = None
    /\ result_of (while_True ticks l)
       = if existsb (fun io => waitKey io =? ord_q) ticks
         then Exited else Running.
Proof.
  induction ticks as [|io rest IH]; intros l Hl Hall.
  - repeat split; assumption.
  - inversion Hall as [|? ? Hio Hrest]; subst.
    assert (Hs : stalls (startTime l) io = false)
      by (unfold stalls; now rewrite Hio).
    assert (Hc : clrFrame (state_of (loop_body io l)) = None)
      by (rewrite (tick_clrFrame _ _ Hs), Hio; exact Hl).
    assert (Hr : renders "RGB Detection" (trace_of (loop_body io l)) = [])
      by (rewrite tick_renders_rgb, Hs, Hc; reflexivity).
    rewrite while_True_step, (tick_flow _ _ Hs). cbn [existsb].
    destruct (waitKey io =? ord_q); cbn [orb].
    + repeat split; assumption.
    + destruct (IH _ Hc Hrest) as (IH1 & IH2 & IH3).
      repeat split; try assumption.
      change (renders "RGB Detection"
                (trace_of (loop_body io l)
                   ++ trace_of (while_True rest (state_of (loop_body io l))))
              = []).
      rewrite renders_app, Hr, IH1. reflexivity.
Qed.

Lemma no_color_call_before_first_frame_witness :
  renders "RGB Detection"
    (trace_of (while_True [tick_2; tick_4; tick_5]
                          (initial_locals sample_config 0))) = []
  /\ clrFrame (state_of (while_True [tick_2; tick_4; tick_5]
                                    (initial_locals sample_config 0))) = None
  /\ result_of (while_True [tick_2; tick_4; tick_5]
                           (initial_locals sample_config 0)) = Exited.
Proof.
  apply (no_color_call_before_first_frame
           [tick_2; tick_4; tick_5] (initial_locals sample_config 0)).
  - reflexivity.
  - repeat constructor.
Defined.

(** X4.  Once a color frame is held, every iteration that runs to its end
    draws the color window exactly once, whether or not the tick brought
    anything: over ticks without the key [q] and with a usable clock, the
    number of calls on the color window is the number of ticks. *)
Theorem color_window_redrawn_every_iteration :
  forall ticks l,
    clrFrame l <> None ->
    Forall (fun io => stalls (startTime l) io = false) ticks ->
    existsb (fun io => waitKey io =? ord_q) ticks = false ->
    List.length (renders "RGB Detection" (trace_of (while_True ticks l)))
    = List.length ticks.
Proof.
  induction ticks as [|io rest IH]; intros l Hl Hall Hq; [reflexivity|].
  inversion Hall as [|? ? Hio Hrest]; subst.
  cbn [existsb] in Hq. apply orb_false_iff in Hq. destruct Hq as [Hq1 Hq2].
  rewrite while_True_step, (tick_flow _ _ Hio), Hq1.
  change (List.length
            (renders "RGB Detection"
               (trace_of (loop_body io l)
                  ++ trace_of (while_True rest (state_of (loop_body io l)))))
          = S (List.length rest)).
  rewrite renders_app, length_app, (tick_renders_rgb_count _ _ Hio Hl).
  destruct (tick_always io l) as (Et & _ & _ & _ & Hkeep).
  rewrite IH; [reflexivity| now apply Hkeep | now rewrite Et | exact Hq2].
Qed.

Lemma color_window_redrawn_every_iteration_witness :
  List.length
    (renders "RGB Detection"
       (trace_of
          (while_True [tick_2; tick_4; tick_3; tick_2]
             (state_of (while_True [tick_1] (initial_locals sample_config 0))))))
  = 4%nat.
Proof.
  apply (color_window_redrawn_every_iteration
           [tick_2; tick_4; tick_3; tick_2]
           (state_of (while_True [tick_1] (initial_locals sample_config 0)))).
  - discriminate.
  - repeat constructor.
  - reflexivity.
Defined.

(** X5.  What an iteration stopped by the division of line 174 has done:
    the left and right frames of the tick were displayed, [clrFrame] holds
    the new color frame without a caption, and nothing else happened; the
    detection and metadata messages of the tick are dropped and the color
    window is not drawn. *)
Theorem stalled_tick_outcome :
  forall io l,
    stalls (startTime l) io = true ->
    loop_body io l
    = (mono_calls io,
       set_clrFrame (option_map dai.getCvFrame (RGBFrames io)) l,
       Raised ZeroDivisionError).
Proof.
  intros io l H; revert H. unfold mono_calls.
  split_tick io l; intros H; try discriminate H; reflexivity.
Qed.

Lemma stalled_tick_outcome_witness :
  loop_body tick_stalled_clock (initial_locals sample_config 0)
  = ([],
     set_clrFrame (Some (dai.getCvFrame frame_C1))
                  (initial_locals sample_config 0),
     Raised ZeroDivisionError).
Proof.
  apply (stalled_tick_outcome tick_stalled_clock
           (initial_locals sample_config 0)).
  reflexivity.
Defined.

(** X7.  What no run of the loop ever does, however it ends: it does not
    change [startTime] or [color2], it does not lower [counter], it does
    not raise the print latch again once it is down, and it does not drop
    a color frame it holds. *)
Theorem run_never_resets :
  forall ticks l,
    startTime (state_of (while_True ticks l)) = startTime l
    /\ color2 (state_of (while_True ticks l)) = color2 l
    /\ counter l <= counter (state_of (while_True ticks l))
    /\ (printOutputLayersOnce (state_of (while_True ticks l)) = true ->
        printOutputLayersOnce l = true)
    /\ (clrFrame l <> None ->
        clrFrame (state_of (while_True ticks l)) <> None).
Proof.
  induction ticks as [|io rest IH]; intros l.
  - cbn. repeat split; auto. lia.
  - rewrite while_True_step.
    destruct (result_of (loop_body io l)) as [[|]|e]; cbn [state_of fst snd];
      try apply tick_always.
    destruct (tick_always io l) as (T1 & T2 & T3 & T4 & T5).
    destruct (IH (state_of (loop_body io l))) as (R1 & R2 & R3 & R4 & R5).
    change (snd (fst (while_True rest (state_of (loop_body io l)))))
      with (state_of (while_True rest (state_of (loop_body io l)))).
    repeat split.
    + congruence.
    + congruence.
    + lia.
    + auto.
    + auto.
Qed.

(** X8.  A tick on which all five queues are empty changes no variable; it
    draws the color window again when a frame is held and makes no other
    call, and it leaves the loop or not by the key alone. *)
Theorem idle_tick :
  forall io l,
    LeftFrames io = None ->
    RightFrames io = None ->
    RGBFrames io = None ->
    inDet io = None ->
    inNN io = None ->
    loop_body io l
    = (match clrFrame l with
       | Some frame => [displayFrame "RGB Detection" frame (detections l)]
       | None => []
       end,
       l,
       Ok (if waitKey io =? ord_q then Break else Next)).
Proof.
  intros io l. split_tick io l; intros; try discriminate; reflexivity.
Qed.

Lemma idle_tick_witness :
  loop_body (mkTick None None None None None (9 # 10) no_key)
            (state_of (while_True [tick_1; tick_2] (initial_locals sample_config 0)))
  = ([displayFrame "RGB Detection"
        (fps_overlay (dai.getCvFrame frame_C1) 0 (255, 255, 255))
        (dai.detections set_D1)],
     state_of (while_True [tick_1; tick_2] (initial_locals sample_config 0)),
     Ok Next).
Proof.
  apply (idle_tick (mkTick None None None None None (9 # 10) no_key)
           (state_of (while_True [tick_1; tick_2]
                                 (initial_locals sample_config 0))));
    reflexivity.
Defined.

(** ** Further properties of one iteration and of a crash *)

(** X11.  The calls of an iteration that runs to its end, in order: the
    left frame, the right frame, the layer-name dump when the latch is up
    and metadata came, then the color window with the variables as the
    iteration leaves them.  Nothing else is called, and the dump comes
    before the color window is drawn. *)
Theorem tick_calls_in_order :
  forall io l,
    stalls (startTime l) io = false ->
    trace_of (loop_body io l)
    = mono_calls io
      ++ match printOutputLayersOnce l, inNN io with
         | true, Some nn => [print_neural_network_layer_names nn]
         | _, _ => []
         end
      ++ match clrFrame (state_of (loop_body io l)) with
         | Some frame =>
             [displayFrame "RGB Detection" frame
                (detections (state_of (loop_body io l)))]
         | None => []
         end.
Proof.
  intros io l H; revert H. unfold mono_calls.
  split_tick io l; intros H; try discriminate H; reflexivity.
Qed.

Lemma tick_calls_in_order_witness :
  trace_of
    (loop_body tick_4
       (state_of (while_True [tick_1; tick_2] (initial_locals sample_config 0))))
  = [displayFrame "Left" (dai.getCvFrame frame_L1) [];
     print_neural_network_layer_names layers_N1;
     displayFrame "RGB Detection"
       (fps_overlay (dai.getCvFrame frame_C1) 0 (255, 255, 255))
       (dai.detections set_D1)].
Proof.
  apply (tick_calls_in_order tick_4
           (state_of (while_True [tick_1; tick_2]
                                 (initial_locals sample_config 0)))).
  reflexivity.
Defined.

(** X12.  In a session started from the initial variables, with a clock
    that has moved forward since the loop started, the value written in
    the caption of a new color frame is never negative. *)
Theorem caption_value_not_negative :
  forall config t0 pre io m,
    result_of (while_True pre (initial_locals config t0)) = Running ->
    RGBFrames io = Some m ->
    (t0 < monotonic io)%Q ->
    exists v,
      clrFrame
        (state_of
           (loop_body io (state_of (while_True pre (initial_locals config t0)))))
      = Some (fps_overlay (dai.getCvFrame m) v (TEXT_COLOR2 config))
      /\ (0 <= v)%Q.
Proof.
  intros config t0 pre io m Hrun Hrgb Hlt.
  pose proof (tracks_run config t0 pre [] _ (tracks_initial config t0) Hrun)
    as (Ht & Hc & _ & Hn & _).
  cbn [app] in Hn.
  unfold detections_received in Hn. rewrite count_detections_from in Hn.
  set (l := state_of (while_True pre (initial_locals config t0))) in *.
  assert (Hs : stalls (startTime l) io = false).
  { unfold stalls. rewrite Hrgb, Ht. apply clock_moved_iff.
    intros E. rewrite E in Hlt. exact (Qlt_irrefl _ Hlt). }
  exists (inject_Z (counter l) / (monotonic io - t0))%Q. split.
  - rewrite (tick_clrFrame _ _ Hs), Hrgb, Ht, Hc. reflexivity.
  - unfold Qdiv. apply Qmult_le_0_compat.
    + rewrite Hn. unfold Qle. cbn. lia.
    + apply Qinv_le_0_compat, Qlt_le_weak.
      unfold Qminus. now apply -> Qlt_minus_iff.
Qed.

Lemma caption_value_not_negative_witness :
  exists v,
    clrFrame
      (state_of
         (loop_body tick_3
            (state_of
               (while_True [tick_1; tick_2] (initial_locals sample_config 0)))))
    = Some (fps_overlay (dai.getCvFrame frame_C2) v (TEXT_COLOR2 sample_config))
    /\ (0 <= v)%Q.
Proof.
  apply (caption_value_not_negative sample_config 0 [tick_1; tick_2] tick_3
           frame_C2); reflexivity.
Defined.

Lemma tick_stalled_effects io l :
  stalls (startTime l) io = true ->
  trace_of (loop_body io l) = mono_calls io
  /\ state_of (loop_body io l)
     = set_clrFrame (option_map dai.getCvFrame (RGBFrames io)) l.
Proof.
  intros H; revert H. unfold mono_calls.
  split_tick io l; intros H; try discriminate H; split; reflexivity.
Qed.

Lemma run_stops_at_stalled_tick pre io post l :
  Forall (fun t => stalls (startTime l) t = false) pre ->
  existsb (fun t => waitKey t =? ord_q) pre = false ->
  stalls (startTime l) io = true ->
  while_True (pre ++ io :: post) l
  = (trace_of (while_True pre l) ++ mono_calls io,
     set_clrFrame (option_map dai.getCvFrame (RGBFrames io))
                  (state_of (while_True pre l)),
     Crashed ZeroDivisionError).
Proof.
  intros Hpre Hq Hio.
  assert (Hrun : result_of (while_True pre l) = Running)
    by (rewrite (run_without_stall pre l Hpre), Hq; reflexivity).
  rewrite (while_True_app pre (io :: post) l Hrun).
  set (l1 := state_of (while_True pre l)).
  assert (Hio1 : stalls (startTime l1) io = true)
    by (unfold l1; rewrite run_startTime; exact Hio).
  rewrite while_True_step, (tick_stalled _ _ Hio1).
  destruct (tick_stalled_effects _ _ Hio1) as [-> ->].
  reflexivity.
Qed.

Lemma run_crash_splits ticks : forall l e,
  result_of (while_True ticks l) = Crashed e ->
  exists pre io post,
    ticks = pre ++ io :: post
    /\ Forall (fun t => stalls (startTime l) t = false) pre
    /\ existsb (fun t => waitKey t =? ord_q) pre = false
    /\ stalls (startTime l) io = true
    /\ e = ZeroDivisionError.
Proof.
  induction ticks as [|io rest IH]; intros l e; [discriminate|].
  rewrite while_True_step.
  destruct (stalls (startTime l) io) eqn:Hs.
  - rewrite (tick_stalled _ _ Hs). cbn. intros [= <-].
    exists [], io, rest. repeat split; [constructor|exact Hs].
  - rewrite (tick_flow _ _ Hs).
    destruct (waitKey io =? ord_q) eqn:Hkey; [discriminate|].
    cbn. intros H.
    destruct (IH _ _ H) as (pre & io' & post & -> & Hpre & Hq & Hio' & He).
    destruct (tick_constants io l) as [E _]. rewrite E in Hpre, Hio'.
    exists (io :: pre), io', post. repeat split.
    + constructor; assumption.
    + cbn [existsb]. now rewrite Hkey, Hq.
    + exact Hio'.
    + exact He.
Qed.

(** X13.  Where the division of line 174 ends a run.  If no earlier tick
    had the key [q] or a stalled clock, the first tick that brings a color
    frame while the clock shows the start time ends the run there with
    [ZeroDivisionError]: the calls made are those of the earlier ticks and
    the left and right frames of this one, the variables are those the
    earlier ticks left with the new uncaptioned frame in [clrFrame], and
    the ticks after it are never looked at.  And every run of the loop
    that ends in an exception ends in this way. *)
Theorem first_stalled_tick_ends_the_run :
  (forall pre io post l,
      Forall (fun t => stalls (startTime l) t = false) pre ->
      existsb (fun t => waitKey t =? ord_q) pre = false ->
      stalls (startTime l) io = true ->
      while_True (pre ++ io :: post) l
      = (trace_of (while_True pre l) ++ mono_calls io,
         set_clrFrame (option_map dai.getCvFrame (RGBFrames io))
                      (state_of (while_True pre l)),
         Crashed ZeroDivisionError))
  /\ (forall ticks l e,
         result_of (while_True ticks l) = Crashed e ->
         exists pre io post,
           ticks = pre ++ io :: post
           /\ Forall (fun t => stalls (startTime l) t = false) pre
           /\ existsb (fun t => waitKey t =? ord_q) pre = false
           /\ stalls (startTime l) io = true
           /\ e = ZeroDivisionError).
Proof.
  split.
  - intros pre io post l. apply run_stops_at_stalled_tick.
  - intros ticks l e. apply run_crash_splits.
Qed.

Lemma first_stalled_tick_ends_the_run_witness :
  while_True ([tick_2; tick_4] ++ tick_stalled_clock :: [tick_1; tick_5])
             (initial_locals sample_config 0)
  = (trace_of (while_True [tick_2; tick_4] (initial_locals sample_config 0))
       ++ mono_calls tick_stalled_clock,
     set_clrFrame (option_map dai.getCvFrame (RGBFrames tick_stalled_clock))
       (state_of (while_True [tick_2; tick_4] (initial_locals sample_config 0))),
     Crashed ZeroDivisionError).
Proof.
  apply (proj1 first_stalled_tick_ends_the_run
           [tick_2; tick_4] tick_stalled_clock [tick_1; tick_5]
           (initial_locals sample_config 0)).
  - repeat constructor.
  - reflexivity.
  - reflexivity.
Defined.

(** ** Further properties of the pipeline and of the script *)

(** X9.  What the pipeline built by [setup_pipeline] streams, on a host
    that has the model file: nine nodes (two mono cameras, the color
    camera, the network, five stream outputs); the stream named [Left] is
    fed by the [out] port of the mono camera set on the LEFT socket and
    the stream named [Right] by that of the camera on the RIGHT socket;
    [RGB] is fed by the color camera's preview, [nn] by the network's
    [out] and [nnNet] by its [outNetwork]; the network itself is fed by
    the same preview that is streamed as [RGB]; and no node is left
    without a link. *)
Theorem named_streams_carry_their_sources :
  forall config host blob,
    blob_at host (MOBILENET_DETECTION_MODEL_PATH config) = Some blob ->
    accepted_integers config = true ->
    exists p,
      setup_pipeline config host = ([], Ok p)
      /\ map dai.kind (dai.nodes p)
         = [dai.node.MonoCamera; dai.node.MonoCamera; dai.node.ColorCamera;
            dai.node.MobileNetDetectionNetwork; dai.node.XLinkOut;
            dai.node.XLinkOut; dai.node.XLinkOut; dai.node.XLinkOut;
            dai.node.XLinkOut]
      /\ stream_names p = ["Left"; "Right"; "RGB"; "nn"; "nnNet"]
      /\ stream_sources p "Left" = [(dai.node.MonoCamera, [dai.LEFT], dai.out)]
      /\ stream_sources p "Right"
         = [(dai.node.MonoCamera, [dai.RIGHT], dai.out)]
      /\ stream_sources p "RGB" = [(dai.node.ColorCamera, [], dai.preview)]
      /\ stream_sources p "nn"
         = [(dai.node.MobileNetDetectionNetwork, [], dai.out)]
      /\ stream_sources p "nnNet"
         = [(dai.node.MobileNetDetectionNetwork, [], dai.outNetwork)]
      /\ network_sources p = [(dai.node.ColorCamera, dai.preview)]
      /\ Forall (fun n => links_at p n <> []) (dai.nodes p).
Proof.
  intros config host blob Hblob Hints.
  exists (description_for config blob).
  split; [now apply setup_pipeline_builds|].
  destruct config as [size il th n path q b col pr].
  repeat split; try (vm_compute; reflexivity).
  apply Forall_forall. intros x Hin. vm_compute in Hin.
  repeat (destruct Hin as [<-|Hin]; [vm_compute; discriminate|]).
  destruct Hin.
Qed.

Lemma named_streams_carry_their_sources_witness :
  exists p,
    setup_pipeline sample_config sample_host = ([], Ok p)
    /\ map dai.kind (dai.nodes p)
       = [dai.node.MonoCamera; dai.node.MonoCamera; dai.node.ColorCamera;
          dai.node.MobileNetDetectionNetwork; dai.node.XLinkOut;
          dai.node.XLinkOut; dai.node.XLinkOut; dai.node.XLinkOut;
          dai.node.XLinkOut]
    /\ stream_names p = ["Left"; "Right"; "RGB"; "nn"; "nnNet"]
    /\ stream_sources p "Left" = [(dai.node.MonoCamera, [dai.LEFT], dai.out)]
    /\ stream_sources p "Right" = [(dai.node.MonoCamera, [dai.RIGHT], dai.out)]
    /\ stream_sources p "RGB" = [(dai.node.ColorCamera, [], dai.preview)]
    /\ stream_sources p "nn"
       = [(dai.node.MobileNetDetectionNetwork, [], dai.out)]
    /\ stream_sources p "nnNet"
       = [(dai.node.MobileNetDetectionNetwork, [], dai.outNetwork)]
    /\ network_sources p = [(dai.node.ColorCamera, dai.preview)]
    /\ Forall (fun n => links_at p n <> []) (dai.nodes p).
Proof.
  apply (named_streams_carry_their_sources sample_config sample_host blob_B1);
    reflexivity.
Defined.






Lemma setup_pipeline_rejects_threads config host :
  fits_int (fst (COLOR_CAMERA_PREVIEW_SIZE config))
  && fits_int (snd (COLOR_CAMERA_PREVIEW_SIZE config)) = true ->
  fits_int (INFERENCE_THREADS config) = false ->
  setup_pipeline config host = ([], Raised TypeError).
Proof.
  destruct config as [[w h] il th n path q b col pr].
  cbn [COLOR_CAMERA_PREVIEW_SIZE INFERENCE_THREADS fst snd].
  intros Hsize Hn.
  unfold setup_pipeline, setup_pipeline_on, setPreviewSize,
    setNumInferenceThreads.
  cbn [COLOR_CAMERA_PREVIEW_SIZE INFERENCE_THREADS fst snd].
  rewrite Hsize, Hn. vm_compute. reflexivity.
Qed.

Lemma setup_pipeline_misses_blob config host :
  accepted_integers config = true ->
  blob_at host (MOBILENET_DETECTION_MODEL_PATH config) = None ->
  setup_pipeline config host = ([], Raised RuntimeError).
Proof.
  destruct config as [[w h] il th n path q b col pr].
  unfold accepted_integers. cbn [COLOR_CAMERA_PREVIEW_SIZE INFERENCE_THREADS
    MOBILENET_DETECTION_MODEL_PATH fst snd].
  intros Hints Hblob.
  apply andb_true_iff in Hints. destruct Hints as [Hsize Hn].
  unfold setup_pipeline, setup_pipeline_on, setPreviewSize,
    setNumInferenceThreads, setBlobPath.
  cbn [COLOR_CAMERA_PREVIEW_SIZE INFERENCE_THREADS
    MOBILENET_DETECTION_MODEL_PATH fst snd].
  rewrite Hblob, Hsize, Hn. vm_compute. reflexivity.
Qed.

(** X14.  How the script stops before the loop, with no call made to the
    outside world and the loop variables never created: with an inference
    thread count that is not a C int, [TypeError] at line 74, whatever the
    host holds (the model file is not looked at); with no blob behind the
    model path, [RuntimeError] at line 76, before any device is asked for;
    with the pipeline built and no device for it, [RuntimeError] at line
    98, with nothing printed and no queue opened. *)
Theorem script_stops_before_the_loop :
  forall config host t0 ticks,
    (fits_int (fst (COLOR_CAMERA_PREVIEW_SIZE config))
     && fits_int (snd (COLOR_CAMERA_PREVIEW_SIZE config)) = true ->
     fits_int (INFERENCE_THREADS config) = false ->
     main config host t0 ticks = ([], None, Crashed TypeError))
    /\ (accepted_integers config = true ->
        blob_at host (MOBILENET_DETECTION_MODEL_PATH config) = None ->
        main config host t0 ticks = ([], None, Crashed RuntimeError))
    /\ (forall blob,
           accepted_integers config = true ->
           blob_at host (MOBILENET_DETECTION_MODEL_PATH config) = Some blob ->
           connect host (description_for config blob) = None ->
           main config host t0 ticks = ([], None, Crashed RuntimeError)).
Proof.
  intros config host t0 ticks. repeat split.
  - intros Hsize Hn. unfold main.
    rewrite (setup_pipeline_rejects_threads _ _ Hsize Hn). reflexivity.
  - intros Hints Hblob. unfold main.
    rewrite (setup_pipeline_misses_blob _ _ Hints Hblob). reflexivity.
  - intros blob Hints Hblob Hdev. unfold main.
    rewrite (setup_pipeline_builds _ _ _ Hblob Hints).
    unfold upload_pipeline, open_device, Device. rewrite Hdev. reflexivity.
Qed.

Lemma script_stops_before_the_loop_witness :
  main (mkConfig (300, 300) false (1 # 2) 4294967296 "mobilenet-ssd.blob" 4
                 false (255, 255, 255) true)
       host_without_blob 0 [tick_1; tick_2]
  = ([], None, Crashed TypeError)
  /\ main sample_config host_without_blob 0 [tick_1; tick_2]
     = ([], None, Crashed RuntimeError)
  /\ main sample_config host_without_device 0 [tick_1; tick_2]
     = ([], None, Crashed RuntimeError).
Proof.
  split; [|split].
  - apply (proj1 (script_stops_before_the_loop
                    (mkConfig (300, 300) false (1 # 2) 4294967296
                              "mobilenet-ssd.blob" 4 false (255, 255, 255)
                              true)
                    host_without_blob 0 [tick_1; tick_2])); reflexivity.
  - apply (proj1 (proj2 (script_stops_before_the_loop
                           sample_config host_without_blob 0
                           [tick_1; tick_2]))); reflexivity.
  - apply (proj2 (proj2 (script_stops_before_the_loop
                           sample_config host_without_device 0
                           [tick_1; tick_2])) blob_B1); reflexivity.
Defined.
